(** * Blockly.FieldNumberSlider (core/field_number_slider.js)

    A shallow embedding of the number-slider field of scratch-blocks and the
    properties its specification states about it.

    - [JS]: the JavaScript values the field handles (strings and IEEE 754
      binary64 numbers) with the conversions the source calls: truthiness,
      [isNaN], [String], [Number.parseFloat], [toFixed(1)], [==].
    - [Host]: the objects the field talks to (the field base class, the
      drop-down overlay, the DOM, goog.ui.Slider, goog.events), as a store
      threaded through a state-and-exception monad.
    - [FieldNumberSlider]: the methods of the source file, statement by
      statement. *)

From Stdlib Require Import ZArith Ascii String List Bool Lia DecimalString.
From stdpp Require Import base list.

Local Open Scope string_scope.
Local Open Scope Z_scope.
Local Open Scope list_scope.

(* ===================================================================== *)
(** * JavaScript values *)
(* ===================================================================== *)

Module JS.

(** A JavaScript Number: an IEEE 754 binary64 value.  [Fin neg m e] is
    [(-1)^neg * m * 2^e] with [m < 2^53] and [-1074 <= e <= 971]. *)
Inductive number : Type :=
| NaN
| Inf (neg : bool)
| Zero (neg : bool)
| Fin (neg : bool) (m : positive) (e : Z).

(** The values that reach the field: its JSDoc types the initial content as
    [(string|number)=], and the slider callback tests its value against
    [null]. A string is a sequence of code units below 256. *)
Inductive value : Type :=
| Undefined
| Null
| Number (n : number)
| Str (s : string).

(** ** Rounding an exact ratio to binary64 (nearest, ties to even) *)

(** [2^l <= n / d], for positive [n] and [d]. *)
Definition ratio_geq_pow2 (n d l : Z) : bool :=
  if 0 <=? l then d * 2 ^ l <=? n else d <=? n * 2 ^ (- l).

(** [floor (log2 (n / d))]. *)
Definition ratio_log2 (n d : Z) : Z :=
  let l := Z.log2 n - Z.log2 d in
  if ratio_geq_pow2 n d l then l else l - 1.

(** Quotient, remainder and divisor of [n / (d * 2^e)]. *)
Definition scaled_div (n d e : Z) : Z * Z * Z :=
  if 0 <=? e
  then let dv := d * 2 ^ e in (n / dv, n mod dv, dv)
  else let nm := n * 2 ^ (- e) in (nm / d, nm mod d, d).

Definition round_half_even (q r dv : Z) : Z :=
  match 2 * r ?= dv with
  | Lt => q
  | Gt => q + 1
  | Eq => if Z.even q then q else q + 1
  end.

(** The binary64 value nearest to [n / d] ([n], [d] positive), with sign
    [neg]: 53 bits of mantissa, gradual underflow below [2^-1022],
    overflow to infinity. *)
Definition round_ratio (neg : bool) (n d : Z) : number :=
  let e := Z.max (ratio_log2 n d - 52) (-1074) in
  let '(q, r, dv) := scaled_div n d e in
  let m := round_half_even q r dv in
  let '(m, e) := if m =? 2 ^ 53 then (2 ^ 52, e + 1) else (m, e) in
  match m with
  | Zpos p => if e <=? 971 then Fin neg p e else Inf neg
  | _ => Zero neg
  end.

(** The Number value of the decimal [mant * 10^exp10] ([mant >= 0]). *)
Definition round_decimal (neg : bool) (mant exp10 : Z) : number :=
  if mant <=? 0 then Zero neg
  else if 0 <=? exp10 then round_ratio neg (mant * 10 ^ exp10) 1
  else round_ratio neg mant (10 ^ (- exp10)).

(** ** Characters and digit strings *)

Definition code (c : ascii) : Z := Z.of_nat (nat_of_ascii c).

Definition is_digit (c : ascii) : bool := (48 <=? code c) && (code c <=? 57).

(** StrWhiteSpaceChar below 256: TAB, LF, VT, FF, CR, SP, NBSP. *)
Definition is_space (c : ascii) : bool :=
  ((9 <=? code c) && (code c <=? 13)) || (code c =? 32) || (code c =? 160).

(** The value of a digit in a radix up to 16, [None] for another character. *)
Definition digit_in (radix : Z) (c : ascii) : option Z :=
  let k := code c in
  let v := if (48 <=? k) && (k <=? 57) then k - 48
           else if (97 <=? k) && (k <=? 102) then k - 87
           else if (65 <=? k) && (k <=? 70) then k - 55
           else 16 in
  if v <? radix then Some v else None.

(** The longest prefix of decimal digits, and the rest. *)
Fixpoint span_digits (s : string) : string * string :=
  match s with
  | String c r =>
      if is_digit c then let '(d, t) := span_digits r in (String c d, t)
      else (EmptyString, s)
  | EmptyString => (EmptyString, EmptyString)
  end.

Fixpoint digits_value (acc : Z) (s : string) : Z :=
  match s with
  | String c r => digits_value (10 * acc + (code c - 48)) r
  | EmptyString => acc
  end.

(** All characters are digits of [radix]: the value, else [None]. *)
Fixpoint radix_value (radix acc : Z) (s : string) : option Z :=
  match s with
  | String c r =>
      match digit_in radix c with
      | Some v => radix_value radix (radix * acc + v) r
      | None => None
      end
  | EmptyString => Some acc
  end.

(** Every character of [s] satisfies [p]. *)
Fixpoint all_chars (p : ascii -> bool) (s : string) : bool :=
  match s with
  | String c r => p c && all_chars p r
  | EmptyString => true
  end.

Fixpoint drop_spaces (s : string) : string :=
  match s with
  | String c r => if is_space c then drop_spaces r else s
  | EmptyString => EmptyString
  end.

Fixpoint rev_string (acc s : string) : string :=
  match s with
  | String c r => rev_string (String c acc) r
  | EmptyString => acc
  end.

(** [String.prototype.trim]. *)
Definition trim (s : string) : string :=
  rev_string "" (drop_spaces (rev_string "" (drop_spaces s))).

(** The decimal numeral of a non-negative integer. *)
Definition decimal (n : Z) : string := NilZero.string_of_uint (N.to_uint (Z.to_N n)).

Fixpoint zeros (n : nat) : string :=
  match n with
  | O => ""
  | S k => String "0" (zeros k)
  end.

(** ** StrDecimalLiteral *)

Inductive literal : Type :=
| LitInfinity (neg : bool)
| LitDecimal (neg : bool) (int_part frac_part : string) (exponent : Z).

(** [s] without its prefix [p], when it has it. *)
Fixpoint strip_prefix (p s : string) : option string :=
  match p, s with
  | EmptyString, _ => Some s
  | String a p', String b s' => if Ascii.eqb a b then strip_prefix p' s' else None
  | String _ _, EmptyString => None
  end.

(** An optional sign. *)
Definition take_sign (s : string) : bool * string :=
  match s with
  | String "-" r => (true, r)
  | String "+" r => (false, r)
  | _ => (false, s)
  end.

(** An optional ExponentPart: [e] or [E], an optional sign, digits.  When no
    digit follows, nothing is taken. *)
Definition take_exponent (s : string) : Z * string :=
  match s with
  | String c r =>
      if (code c =? 101) || (code c =? 69) then
        let '(neg, r1) := take_sign r in
        let '(ds, r2) := span_digits r1 in
        match ds with
        | EmptyString => (0, s)
        | _ => (if neg then - digits_value 0 ds else digits_value 0 ds, r2)
        end
      else (0, s)
  | EmptyString => (0, s)
  end.

(** The longest prefix of [s] that is a StrDecimalLiteral, and the rest. *)
Definition lex_decimal (s : string) : option (literal * string) :=
  let '(neg, s1) := take_sign s in
  match strip_prefix "Infinity" s1 with
  | Some rest => Some (LitInfinity neg, rest)
  | None =>
    let '(ip, s2) := span_digits s1 in
    match s2 with
    | String "." r =>
        let '(fp, s3) := span_digits r in
        match ip, fp with
        | EmptyString, EmptyString => None
        | _, _ => let '(ex, s4) := take_exponent s3 in Some (LitDecimal neg ip fp ex, s4)
        end
    | _ =>
        match ip with
        | EmptyString => None
        | _ => let '(ex, s4) := take_exponent s2 in Some (LitDecimal neg ip "" ex, s4)
        end
    end
  end.

(** The Number value of a literal. *)
Definition literal_value (l : literal) : number :=
  match l with
  | LitInfinity neg => Inf neg
  | LitDecimal neg ip fp ex =>
      round_decimal neg (digits_value 0 (String.append ip fp)) (ex - Z.of_nat (String.length fp))
  end.

(** NonDecimalIntegerLiteral: [0x], [0o] or [0b] (either case) and digits. *)
Definition lex_nondecimal (s : string) : option Z :=
  match s with
  | String "0" (String c (String d r)) =>
      let k := code c in
      let radix := if (k =? 120) || (k =? 88) then 16
                   else if (k =? 111) || (k =? 79) then 8
                   else if (k =? 98) || (k =? 66) then 2 else 0 in
      radix_value radix 0 (String d r)
  | _ => None
  end.

(** StringToNumber: the whole trimmed string is a numeric literal. *)
Definition string_to_number (s : string) : number :=
  let t := trim s in
  match t with
  | EmptyString => Zero false
  | _ =>
      match lex_decimal t with
      | Some (l, EmptyString) => literal_value l
      | _ =>
          match lex_nondecimal t with
          | Some n => round_decimal false n 0
          | None => NaN
          end
      end
  end.

(** [parseFloat] of a string: the longest StrDecimalLiteral prefix after
    leading white space. *)
Definition parse_float_string (s : string) : number :=
  match lex_decimal (drop_spaces s) with
  | Some (l, _) => literal_value l
  | None => NaN
  end.

(** ** Number::toString *)

(** [m * 2^e] compared with [s * 10^p] (all of [m], [s] positive). *)
Definition compare_bin_dec (m e s p : Z) : comparison :=
  (m * 2 ^ Z.max e 0 * 10 ^ Z.max (- p) 0 ?= s * 10 ^ Z.max p 0 * 2 ^ Z.max (- e) 0).

(** The least [n] from [n0] on, within [fuel] steps, with [m * 2^e < 10^n]. *)
Fixpoint decimal_exponent_from (fuel : nat) (m e n0 : Z) : Z :=
  match fuel with
  | O => n0
  | S k =>
      match compare_bin_dec m e 1 n0 with
      | Lt => n0
      | _ => decimal_exponent_from k m e (n0 + 1)
      end
  end.

(** The [n] with [10^(n-1) <= m * 2^e < 10^n]: [floor (log10 x)] is within
    one of [floor (log2 x) * log10 2]. *)
Definition decimal_exponent (m e : Z) : Z :=
  decimal_exponent_from 6 m e ((Z.log2 m + e) * 30103 / 100000 - 2).

(** [floor (m * 2^e / 10^p)]. *)
Definition floor_scaled (m e p : Z) : Z :=
  (m * 2 ^ Z.max e 0 * 10 ^ Z.max (- p) 0) / (10 ^ Z.max p 0 * 2 ^ Z.max (- e) 0).

(** Whether [s * 10^p] is nearer to [m * 2^e] than [(s + 1) * 10^p] is (on a
    tie, whether [s] is even). *)
Definition lower_is_nearer (m e s p : Z) : bool :=
  match compare_bin_dec (2 * m) e (2 * s + 1) p with
  | Lt => true
  | Gt => false
  | Eq => Z.even s
  end.

(** With [k] digits: the digits [s] and exponent [n] of a decimal
    [s * 10^(n-k)] whose Number value is [Fin false m e], if there is one; of
    the two neighbours of the exact value the nearer is preferred. *)
Definition digits_with (m : positive) (e n k : Z) : option (Z * Z) :=
  let p := n - k in
  let lo := floor_scaled (Zpos m) e p in
  let hi := lo + 1 in
  let back s := match round_decimal false s p with
                | Fin _ m' e' => Pos.eqb m' m && (e' =? e)
                | _ => false
                end in
  let hi_pair := if hi =? 10 ^ k then (10 ^ (k - 1), n + 1) else (hi, n) in
  match back lo, back hi with
  | true, true => Some (if lower_is_nearer (Zpos m) e lo p then (lo, n) else hi_pair)
  | true, false => Some (lo, n)
  | false, true => Some hi_pair
  | false, false => None
  end.

(** The shortest digits: [k] runs from [k0] up, [fuel] times; 17 digits
    always suffice for a binary64 value. *)
Fixpoint shortest_digits (fuel : nat) (m : positive) (e n k : Z) : Z * Z :=
  match fuel with
  | O => (floor_scaled (Zpos m) e (n - k), n)
  | S f =>
      match digits_with m e n k with
      | Some r => r
      | None => shortest_digits f m e n (k + 1)
      end
  end.

(** The text of a positive finite Number from its digits [ds] (the numeral
    of [s], [k] characters) and exponent [n]. *)
Definition format_digits (ds : string) (n : Z) : string :=
  let k := Z.of_nat (String.length ds) in
  if (k <=? n) && (n <=? 21) then
    String.append ds (zeros (Z.to_nat (n - k)))
  else if (0 <? n) && (n <=? 21) then
    String.append (substring 0 (Z.to_nat n) ds)
      (String "." (substring (Z.to_nat n) (Z.to_nat (k - n)) ds))
  else if (-6 <? n) && (n <=? 0) then
    String.append "0." (String.append (zeros (Z.to_nat (- n))) ds)
  else
    let ex := String.append (if n - 1 <? 0 then "e-" else "e+") (decimal (Z.abs (n - 1))) in
    match ds with
    | String c EmptyString => String c ex
    | String c r => String c (String "." (String.append r ex))
    | EmptyString => ex
    end.

(** The text of the positive finite Number [m * 2^e]. *)
Definition positive_to_string (m : positive) (e : Z) : string :=
  let '(s, n) := shortest_digits 17 m e (decimal_exponent (Zpos m) e) 1 in
  format_digits (decimal s) n.

(** Number::toString, radix 10. *)
Definition number_to_string (x : number) : string :=
  match x with
  | NaN => "NaN"
  | Zero _ => "0"
  | Inf neg => if neg then "-Infinity" else "Infinity"
  | Fin neg m e =>
      if neg then String "-" (positive_to_string m e) else positive_to_string m e
  end.

(** ** Number.prototype.toFixed(1) *)

(** [floor (10 * m * 2^e + 1/2)]: the integer [n] nearest to ten times the
    value, the larger one on a tie. *)
Definition nearest_tenths (m : positive) (e : Z) : Z :=
  if 0 <=? e then 10 * Zpos m * 2 ^ e
  else (20 * Zpos m + 2 ^ (- e)) / 2 ^ (- e + 1).

Definition toFixed1 (x : number) : string :=
  match x with
  | NaN | Inf _ => number_to_string x
  | Zero _ => "0.0"
  | Fin neg m e =>
      match compare_bin_dec (Zpos m) e 1 21 with
      | Lt =>
          let n := nearest_tenths m e in
          let t := String.append (decimal (n / 10)) (String "." (decimal (n mod 10))) in
          if neg then String "-" t else t
      | _ => number_to_string x
      end
  end.

(** ** Conversions and operators on values *)

(** ToBoolean. *)
Definition truthy (v : value) : bool :=
  match v with
  | Undefined | Null => false
  | Number (NaN | Zero _) => false
  | Number _ => true
  | Str EmptyString => false
  | Str _ => true
  end.

(** ToString: what [String(v)] returns. *)
Definition to_string (v : value) : string :=
  match v with
  | Undefined => "undefined"
  | Null => "null"
  | Number n => number_to_string n
  | Str s => s
  end.

(** ToNumber. *)
Definition to_number (v : value) : number :=
  match v with
  | Undefined => NaN
  | Null => Zero false
  | Number n => n
  | Str s => string_to_number s
  end.

Definition is_nan (n : number) : bool :=
  match n with NaN => true | _ => false end.

Definition is_finite (n : number) : bool :=
  match n with NaN | Inf _ => false | _ => true end.

(** The global [isNaN(v)]. *)
Definition isNaN (v : value) : bool := is_nan (to_number v).

(** [Number.parseFloat(v)]: its argument goes through ToString. *)
Definition parseFloat (v : value) : number := parse_float_string (to_string v).

(** [a || b]. *)
Definition or_else (a b : value) : value := if truthy a then a else b.

(** [v !== null]. *)
Definition is_not_null (v : value) : bool :=
  match v with Null => false | _ => true end.

(** [x == 0] for a Number [x]. *)
Definition equals_zero (x : number) : bool :=
  match x with Zero _ => true | _ => false end.

(** The literals of the source. *)
Definition zero : number := Zero false.
Definition one : number := Fin false 4503599627370496 (-52).
Definition minus_one : number := Fin true 4503599627370496 (-52).
Definition one_tenth : number := Fin false 7205759403792794 (-56).

End JS.

(* ===================================================================== *)
(** * The host: objects the field works with *)
(* ===================================================================== *)

Module Host.

(** Objects live in stores and are named by their index there, so that two
    references to one object (the field a callback closes over, the slider
    an event targets, the readout a field and its label container share)
    stay references to one object. *)
Abbreviation FieldId := nat (only parsing).
Abbreviation SliderId := nat (only parsing).
Abbreviation NodeId := nat (only parsing).
Abbreviation Key := nat (only parsing).

(** A DOM element, as far as the source touches one. *)
Record Element : Type := mkElement {
  tagName : string;
  className : string;
  textContent : string;
  childNodes : list NodeId;
  style : list (string * string)
}.

(** The block a block is plugged into; [getCategory] reads [category_]. *)
Record ParentBlock : Type := mkParentBlock {
  category_ : option string
}.

(** The block that owns a field, as far as the source reads it. *)
Record Block : Type := mkBlock {
  parentBlock_ : option ParentBlock
}.

(** Modelled from the spec: the character restrictor that the base class's
    [getNumRestrictor(opt_min, opt_max, opt_precision)] builds (core/field_number.js
    is not among the sources).  The spec says only that min, max and precision
    are used to build it, so it is kept as the three arguments it was built
    from. *)
Record Restrictor : Type := mkRestrictor {
  r_min : JS.value;
  r_max : JS.value;
  r_precision : JS.value
}.

(** A validator takes the new text and returns the accepted text, or nothing
    ([null]) to abort the change (the constructor's JSDoc). *)
Definition Validator : Type := string -> option string.

(** The field object: the base class's state and the two properties the
    source file adds. *)
Record Field : Type := mkField {
  text_ : string;
  validator_ : option Validator;
  restrictor_ : Restrictor;
  argType_ : list string;
  sourceBlock_ : option Block;
  valueSlider_ : option SliderId;
  valueReadout_ : option NodeId
}.

(** Modelled from the spec: a goog.ui.Slider (closure-library is not among the
    sources), as the properties its setters store.  [getValue] is typed as a
    JavaScript value, since the source's callback guards it against [null];
    [setValueCalls] records the arguments of [setValue], oldest first. *)
Record Slider : Type := mkSlider {
  unitIncrement : JS.number;
  step : JS.number;
  minimum : JS.number;
  maximum : JS.number;
  moveToPointEnabled : bool;
  element_ : option NodeId;
  sliderValue : JS.value;
  setValueCalls : list JS.number
}.

(** What a registered listener runs.  A closure is kept by the variable it
    captured: [sliderCallbackFactory_] returns a function closing over
    [self].  Listeners of other classes are opaque. *)
Inductive Handler : Type :=
| SliderCallback (self : FieldId)
| OtherHandler.

(** Modelled from the spec: a goog.events listener; the key that [listen]
    returns is its index in the registry. *)
Record Listener : Type := mkListener {
  src : SliderId;
  type : string;
  handler : Handler;
  removed : bool
}.

(** Modelled from the spec: Blockly.DropDownDiv, the overlay (core/dropdowndiv.js
    is not among the sources). *)
Record DropDownDiv : Type := mkDropDownDiv {
  content : list NodeId;
  visible : bool;
  colour : string * string;
  category : option string;
  owner : option FieldId
}.

Record World : Type := mkWorld {
  fields : list Field;
  sliders : list Slider;
  nodes : list Element;
  listeners : list Listener;
  (** [Blockly.FieldNumberSlider.valueChangeEventKey_] *)
  FieldNumberSlider_valueChangeEventKey_ : option Key;
  (** [Blockly.FieldColourSlider.valueChangeEventKey_] *)
  FieldColourSlider_valueChangeEventKey_ : option Key;
  dropDownDiv : DropDownDiv;
  (** [Blockly.Events.group_] *)
  eventGroup : string;
  (** [Blockly.Msg.VALUE_LABEL] *)
  Msg_VALUE_LABEL : string
}.

Record Event : Type := mkEvent { target : SliderId }.

(** [goog.ui.Component.EventType.CHANGE] *)
Definition CHANGE : string := "change".

(** ** Updating one component *)

Definition with_fields (f : list Field -> list Field) (w : World) : World :=
  mkWorld (f (fields w)) (sliders w) (nodes w) (listeners w)
    (FieldNumberSlider_valueChangeEventKey_ w) (FieldColourSlider_valueChangeEventKey_ w)
    (dropDownDiv w) (eventGroup w) (Msg_VALUE_LABEL w).

Definition with_sliders (f : list Slider -> list Slider) (w : World) : World :=
  mkWorld (fields w) (f (sliders w)) (nodes w) (listeners w)
    (FieldNumberSlider_valueChangeEventKey_ w) (FieldColourSlider_valueChangeEventKey_ w)
    (dropDownDiv w) (eventGroup w) (Msg_VALUE_LABEL w).

Definition with_nodes (f : list Element -> list Element) (w : World) : World :=
  mkWorld (fields w) (sliders w) (f (nodes w)) (listeners w)
    (FieldNumberSlider_valueChangeEventKey_ w) (FieldColourSlider_valueChangeEventKey_ w)
    (dropDownDiv w) (eventGroup w) (Msg_VALUE_LABEL w).

Definition with_listeners (f : list Listener -> list Listener) (w : World) : World :=
  mkWorld (fields w) (sliders w) (nodes w) (f (listeners w))
    (FieldNumberSlider_valueChangeEventKey_ w) (FieldColourSlider_valueChangeEventKey_ w)
    (dropDownDiv w) (eventGroup w) (Msg_VALUE_LABEL w).

Definition with_numberSliderKey (k : option Key) (w : World) : World :=
  mkWorld (fields w) (sliders w) (nodes w) (listeners w)
    k (FieldColourSlider_valueChangeEventKey_ w)
    (dropDownDiv w) (eventGroup w) (Msg_VALUE_LABEL w).

Definition with_dropDownDiv (f : DropDownDiv -> DropDownDiv) (w : World) : World :=
  mkWorld (fields w) (sliders w) (nodes w) (listeners w)
    (FieldNumberSlider_valueChangeEventKey_ w) (FieldColourSlider_valueChangeEventKey_ w)
    (f (dropDownDiv w)) (eventGroup w) (Msg_VALUE_LABEL w).

Definition with_eventGroup (g : string) (w : World) : World :=
  mkWorld (fields w) (sliders w) (nodes w) (listeners w)
    (FieldNumberSlider_valueChangeEventKey_ w) (FieldColourSlider_valueChangeEventKey_ w)
    (dropDownDiv w) g (Msg_VALUE_LABEL w).

(** ** Computations: a store and exceptions *)

Inductive Error : Type :=
| TypeError (what : string).

Inductive Completion (A : Type) : Type :=
| Normal (a : A)
| Throw (e : Error).
Arguments Normal {A} a.
Arguments Throw {A} e.

(** A computation returns normally or throws; either way the store keeps
    what was written before. *)
Definition M (A : Type) : Type := World -> Completion A * World.

Definition ret {A} (a : A) : M A := fun w => (Normal a, w).

Definition bind {A B} (c : M A) (k : A -> M B) : M B :=
  fun w => match c w with
           | (Normal a, w') => k a w'
           | (Throw e, w') => (Throw e, w')
           end.

Definition throw {A} (e : Error) : M A := fun w => (Throw e, w).
Definition gets {A} (f : World -> A) : M A := fun w => (Normal (f w), w).
Definition modify (f : World -> World) : M unit := fun w => (Normal tt, f w).

Declare Scope js_scope.
Delimit Scope js_scope with js.
Notation "x <- c ;; k" := (bind c (fun x => k))
  (at level 100, c at next level, right associativity) : js_scope.
Notation "c ;; k" := (bind c (fun _ => k))
  (at level 100, right associativity) : js_scope.
Local Open Scope js_scope.

(** Reading a property of an object that is not there. *)
Definition deref {A} (what : string) (o : option A) : M A :=
  match o with
  | Some a => ret a
  | None => throw (TypeError what)
  end.

(** ** The DOM *)

(** [document.createElement(tag)] *)
Definition createElement (tag : string) : M NodeId :=
  n <- gets (fun w => length (nodes w)) ;;
  modify (with_nodes (fun ns => ns ++ [mkElement tag "" "" [] []])) ;;
  ret n.

Definition set_className (c : string) (el : Element) : Element :=
  mkElement (tagName el) c (textContent el) (childNodes el) (style el).
Definition set_textContent (t : string) (el : Element) : Element :=
  mkElement (tagName el) (className el) t (childNodes el) (style el).
Definition add_child (c : NodeId) (el : Element) : Element :=
  mkElement (tagName el) (className el) (textContent el) (childNodes el ++ [c]) (style el).
Definition add_style (k v : string) (el : Element) : Element :=
  mkElement (tagName el) (className el) (textContent el) (childNodes el) (style el ++ [(k, v)]).

(** [el.setAttribute('class', c)] *)
Definition setAttribute_class (n : NodeId) (c : string) : M unit :=
  modify (with_nodes (alter (set_className c) n)).

(** [el.textContent = t]; [el] may be undefined. *)
Definition assign_textContent (el : option NodeId) (t : string) : M unit :=
  n <- deref "Cannot set property textContent of undefined" el ;;
  modify (with_nodes (alter (set_textContent t) n)).

(** [parent.appendChild(child)] *)
Definition appendChild (parent child : NodeId) : M unit :=
  modify (with_nodes (alter (add_child child) parent)).

(** [goog.style.setStyle(el, k, v)]; [el] is null for an unrendered component. *)
Definition goog_style_setStyle (el : option NodeId) (k v : string) : M unit :=
  n <- deref "Cannot read property style of null" el ;;
  modify (with_nodes (alter (add_style k v) n)).

(** ** Blockly.DropDownDiv *)

Definition dd_hideWithoutAnimation : M unit :=
  modify (with_dropDownDiv (fun d =>
    mkDropDownDiv (content d) false (colour d) (category d) None)).

Definition dd_clearContent : M unit :=
  modify (with_dropDownDiv (fun d =>
    mkDropDownDiv [] (visible d) (colour d) (category d) (owner d))).

(** [Blockly.DropDownDiv.getContentDiv().appendChild(n)] *)
Definition dd_content_appendChild (n : NodeId) : M unit :=
  modify (with_dropDownDiv (fun d =>
    mkDropDownDiv (content d ++ [n]) (visible d) (colour d) (category d) (owner d))).

Definition dd_setColour (bg border : string) : M unit :=
  modify (with_dropDownDiv (fun d =>
    mkDropDownDiv (content d) (visible d) (bg, border) (category d) (owner d))).

Definition dd_setCategory (c : option string) : M unit :=
  modify (with_dropDownDiv (fun d =>
    mkDropDownDiv (content d) (visible d) (colour d) c (owner d))).

Definition dd_showPositionedByBlock (field : FieldId) (block : option Block) : M unit :=
  modify (with_dropDownDiv (fun d =>
    mkDropDownDiv (content d) true (colour d) (category d) (Some field))).

(** ** goog.ui.Slider *)

(** [new goog.ui.Slider()]: the range model's defaults. *)
Definition new_Slider : M SliderId :=
  s <- gets (fun w => length (sliders w)) ;;
  modify (with_sliders (fun ss => ss ++
    [mkSlider JS.one JS.one JS.zero (JS.Fin false 7036874417766400 (-46)) false None
       (JS.Number JS.zero) []])) ;;
  ret s.

Definition set_unitIncrement (x : JS.number) (sl : Slider) : Slider :=
  mkSlider x (step sl) (minimum sl) (maximum sl) (moveToPointEnabled sl)
    (element_ sl) (sliderValue sl) (setValueCalls sl).
Definition set_step (x : JS.number) (sl : Slider) : Slider :=
  mkSlider (unitIncrement sl) x (minimum sl) (maximum sl) (moveToPointEnabled sl)
    (element_ sl) (sliderValue sl) (setValueCalls sl).
Definition set_minimum (x : JS.number) (sl : Slider) : Slider :=
  mkSlider (unitIncrement sl) (step sl) x (maximum sl) (moveToPointEnabled sl)
    (element_ sl) (sliderValue sl) (setValueCalls sl).
Definition set_maximum (x : JS.number) (sl : Slider) : Slider :=
  mkSlider (unitIncrement sl) (step sl) (minimum sl) x (moveToPointEnabled sl)
    (element_ sl) (sliderValue sl) (setValueCalls sl).
Definition set_moveToPointEnabled (b : bool) (sl : Slider) : Slider :=
  mkSlider (unitIncrement sl) (step sl) (minimum sl) (maximum sl) b
    (element_ sl) (sliderValue sl) (setValueCalls sl).
Definition set_element (n : NodeId) (sl : Slider) : Slider :=
  mkSlider (unitIncrement sl) (step sl) (minimum sl) (maximum sl) (moveToPointEnabled sl)
    (Some n) (sliderValue sl) (setValueCalls sl).
Definition hold (x : JS.value) (sl : Slider) : Slider :=
  mkSlider (unitIncrement sl) (step sl) (minimum sl) (maximum sl) (moveToPointEnabled sl)
    (element_ sl) x (setValueCalls sl).
Definition set_sliderValue (x : JS.number) (sl : Slider) : Slider :=
  mkSlider (unitIncrement sl) (step sl) (minimum sl) (maximum sl) (moveToPointEnabled sl)
    (element_ sl) (JS.Number x) (setValueCalls sl ++ [x]).

Definition slider_setUnitIncrement (s : SliderId) (x : JS.number) : M unit :=
  modify (with_sliders (alter (set_unitIncrement x) s)).
Definition slider_setStep (s : SliderId) (x : JS.number) : M unit :=
  modify (with_sliders (alter (set_step x) s)).
Definition slider_setMinimum (s : SliderId) (x : JS.number) : M unit :=
  modify (with_sliders (alter (set_minimum x) s)).
Definition slider_setMaximum (s : SliderId) (x : JS.number) : M unit :=
  modify (with_sliders (alter (set_maximum x) s)).
Definition slider_setMoveToPointEnabled (s : SliderId) (b : bool) : M unit :=
  modify (with_sliders (alter (set_moveToPointEnabled b) s)).

(** [slider.render(Blockly.DropDownDiv.getContentDiv())]: the slider's
    element is created and appended to the overlay's content. *)
Definition slider_render (s : SliderId) : M unit :=
  n <- createElement "div" ;;
  modify (with_sliders (alter (set_element n) s)) ;;
  dd_content_appendChild n.

(** [slider.getElement()] *)
Definition slider_getElement (s : SliderId) : M (option NodeId) :=
  gets (fun w => sl ← sliders w !! s; element_ sl).

(** [slider.setValue(x)] *)
Definition slider_setValue (s : SliderId) (x : JS.number) : M unit :=
  modify (with_sliders (alter (set_sliderValue x) s)).

(** [slider.getValue()] *)
Definition slider_getValue (s : SliderId) : M JS.value :=
  sl <- (fun w => deref "getValue of undefined" (sliders w !! s) w) ;;
  ret (sliderValue sl).

(** ** goog.events *)

(** [goog.events.listen(src, type, handler)] returns the new listener's key. *)
Definition goog_events_listen (s : SliderId) (ty : string) (h : Handler) : M Key :=
  k <- gets (fun w => length (listeners w)) ;;
  modify (with_listeners (fun ls => ls ++ [mkListener s ty h false])) ;;
  ret k.

Definition mark_removed (l : Listener) : Listener :=
  mkListener (src l) (type l) (handler l) true.

(** [goog.events.unlistenByKey(key)]: whether a listener was removed. *)
Definition goog_events_unlistenByKey (k : Key) : M bool :=
  l <- gets (fun w => listeners w !! k) ;;
  match l with
  | Some l => if removed l then ret false
              else modify (with_listeners (alter mark_removed k)) ;; ret true
  | None => ret false
  end.

(** The listeners a [ty] event on [s] reaches. *)
Definition listens_to (s : SliderId) (ty : string) (l : Listener) : bool :=
  negb (removed l) && Nat.eqb (src l) s && String.eqb (type l) ty.

(** ** Blockly.Events *)

(** [Blockly.Events.setGroup(false)] *)
Definition Events_setGroup_false : M unit := modify (with_eventGroup "").

(** ** The field base class *)

Definition set_text (t : string) (f : Field) : Field :=
  mkField t (validator_ f) (restrictor_ f) (argType_ f) (sourceBlock_ f)
    (valueSlider_ f) (valueReadout_ f).
Definition set_argType (a : list string) (f : Field) : Field :=
  mkField (text_ f) (validator_ f) (restrictor_ f) a (sourceBlock_ f)
    (valueSlider_ f) (valueReadout_ f).
Definition set_sourceBlock (b : option Block) (f : Field) : Field :=
  mkField (text_ f) (validator_ f) (restrictor_ f) (argType_ f) b
    (valueSlider_ f) (valueReadout_ f).
Definition set_valueSlider (s : SliderId) (f : Field) : Field :=
  mkField (text_ f) (validator_ f) (restrictor_ f) (argType_ f) (sourceBlock_ f)
    (Some s) (valueReadout_ f).
Definition set_valueReadout (n : NodeId) (f : Field) : Field :=
  mkField (text_ f) (validator_ f) (restrictor_ f) (argType_ f) (sourceBlock_ f)
    (valueSlider_ f) (Some n).

(** [this], the receiver of a method. *)
Definition this (self : FieldId) : M Field :=
  fun w => deref "this is undefined" (fields w !! self) w.

(** Modelled from the spec: [getNumRestrictor] of the base class. *)
Definition getNumRestrictor (opt_min opt_max opt_precision : JS.value) : Restrictor :=
  mkRestrictor opt_min opt_max opt_precision.

(** Modelled from the spec: the base class's constructor, called with the
    text, the validator and the restrictor; a new field has no block yet. *)
Definition Field_constructor (text : string) (opt_validator : option Validator)
    (opt_restrictor : Restrictor) : Field :=
  mkField text opt_validator opt_restrictor [] None None None.

(** [this.addArgType(t)] *)
Definition addArgType (t : string) (f : Field) : Field :=
  set_argType (argType_ f ++ [t]) f.

(** Modelled from the spec: [getValue] and [getText] of the base class; both
    give the field's text. *)
Definition getValue (self : FieldId) : M string :=
  f <- this self ;; ret (text_ f).
Definition getText (self : FieldId) : M string :=
  f <- this self ;; ret (text_ f).

(** What the validator makes of the new text: the accepted text, or nothing
    to abort the change. *)
Definition callValidator (f : Field) (text : string) : option string :=
  match validator_ f with
  | Some v => v text
  | None => Some text
  end.

(** Modelled from the spec: [setValue] of the base class, "the
    validator-aware setter": the validator is called with the new text and
    the text it accepts is stored; the change is aborted when it accepts
    none. *)
Definition setValue (self : FieldId) (newValue : string) : M unit :=
  f <- this self ;;
  match callValidator f newValue with
  | Some accepted => modify (with_fields (alter (set_text accepted) self))
  | None => ret tt
  end.

(** Modelled from the spec: [dispose] of the base class; the field is
    destroyed with its owning block, from which it is detached. *)
Definition Field_dispose (self : FieldId) : M unit :=
  modify (with_fields (alter (set_sourceBlock None) self)).

End Host.

(* ===================================================================== *)
(** * core/field_number_slider.js *)
(* ===================================================================== *)

Module FieldNumberSlider.
Import Host.
Local Open Scope js_scope.

(** [Blockly.FieldNumberSlider = function(opt_value, opt_min, opt_max,
    opt_precision, opt_validator)]: the constructor, as the field it
    initialises. *)
Definition FieldNumberSlider (opt_value opt_min opt_max opt_precision : JS.value)
    (opt_validator : option Validator) : Field :=
  let numRestrictor := getNumRestrictor opt_min opt_max opt_precision in
  let opt_value :=
    if JS.truthy opt_value && negb (JS.isNaN opt_value)
    then JS.to_string opt_value else "0" in
  addArgType "number" (Field_constructor opt_value opt_validator numRestrictor).

(** A JSON arg object; a key that is missing reads as [undefined]. *)
Definition property (options : list (string * JS.value)) (key : string) : JS.value :=
  match find (fun kv => String.eqb (fst kv) key) options with
  | Some kv => snd kv
  | None => JS.Undefined
  end.

(** [Blockly.FieldNumberSlider.fromJson] *)
Definition fromJson (options : list (string * JS.value)) : Field :=
  FieldNumberSlider (property options "value") (property options "min")
    (property options "max") (property options "precision") None.

(** [Blockly.FieldNumberSlider.prototype.updateDom_] *)
Definition updateDom_ (self : FieldId) : M unit :=
  f <- this self ;;
  match valueSlider_ f with
  | Some _ =>
      t <- getText self ;;
      assign_textContent (valueReadout_ f) t
  | None => ret tt
  end.

(** [Blockly.FieldNumberSlider.prototype.updateSliderHandles_] *)
Definition updateSliderHandles_ (self : FieldId) : M unit :=
  f <- this self ;;
  match valueSlider_ f with
  | Some valueSlider =>
      v <- getValue self ;;
      let num := JS.parseFloat (JS.Str v) in
      (if JS.equals_zero num then slider_setValue valueSlider JS.one else ret tt) ;;
      slider_setValue valueSlider num
  | None => ret tt
  end.

(** [Blockly.FieldNumberSlider.prototype.createLabelDom_]: the container
    node and the readout node. *)
Definition createLabelDom_ (labelText : string) : M (NodeId * NodeId) :=
  labelContainer <- createElement "div" ;;
  setAttribute_class labelContainer "scratchColourPickerLabel" ;;
  readout <- createElement "span" ;;
  setAttribute_class readout "scratchColourPickerReadout" ;;
  label <- createElement "span" ;;
  setAttribute_class label "scratchColourPickerLabelText" ;;
  assign_textContent (Some label) labelText ;;
  appendChild labelContainer label ;;
  appendChild labelContainer readout ;;
  ret (labelContainer, readout).

(** [Blockly.FieldNumberSlider.prototype.sliderCallbackFactory_]: the
    callback it returns for [self]. *)
Definition sliderCallbackFactory_ (self : FieldId) (event : Event) : M unit :=
  value <- slider_getValue (target event) ;;
  if JS.is_not_null value then
    setValue self (JS.toFixed1 (JS.parseFloat (JS.or_else value (JS.Number JS.zero)))) ;;
    updateDom_ self
  else ret tt.

(** [Blockly.FieldNumberSlider.prototype.showEditor_] *)
Definition showEditor_ (self : FieldId) : M unit :=
  dd_hideWithoutAnimation ;;
  dd_clearContent ;;
  VALUE_LABEL <- gets Msg_VALUE_LABEL ;;
  labelDom <- createLabelDom_ VALUE_LABEL ;;
  dd_content_appendChild (fst labelDom) ;;
  modify (with_fields (alter (set_valueReadout (snd labelDom)) self)) ;;
  valueSlider <- new_Slider ;;
  modify (with_fields (alter (set_valueSlider valueSlider) self)) ;;
  slider_setUnitIncrement valueSlider JS.one_tenth ;;
  slider_setStep valueSlider JS.one_tenth ;;
  slider_setMinimum valueSlider JS.minus_one ;;
  slider_setMaximum valueSlider JS.one ;;
  slider_setMoveToPointEnabled valueSlider true ;;
  slider_render valueSlider ;;
  el <- slider_getElement valueSlider ;;
  goog_style_setStyle el "background-color" "#EEEEEE" ;;
  key <- goog_events_listen valueSlider CHANGE (SliderCallback self) ;;
  modify (with_numberSliderKey (Some key)) ;;
  dd_setColour "#ffffff" "#dddddd" ;;
  f <- this self ;;
  sourceBlock <- deref "Cannot read property parentBlock_ of null" (sourceBlock_ f) ;;
  parentBlock <- deref "Cannot read property getCategory of null" (parentBlock_ sourceBlock) ;;
  dd_setCategory (category_ parentBlock) ;;
  dd_showPositionedByBlock self (sourceBlock_ f) ;;
  updateSliderHandles_ self ;;
  updateDom_ self.

(** [Blockly.FieldNumberSlider.prototype.dispose] *)
Definition dispose (self : FieldId) : M unit :=
  key <- gets FieldColourSlider_valueChangeEventKey_ ;;
  match key with
  | Some key => _ <- goog_events_unlistenByKey key ;; ret tt
  | None => ret tt
  end ;;
  Events_setGroup_false ;;
  Field_dispose self.

(** ** Events reaching the callbacks *)

Definition run_handler (h : Handler) (event : Event) : M unit :=
  match h with
  | SliderCallback self => sliderCallbackFactory_ self event
  | OtherHandler => ret tt
  end.

Fixpoint run_listeners (ls : list Listener) (event : Event) : M unit :=
  match ls with
  | l :: ls' => run_handler (handler l) event ;; run_listeners ls' event
  | [] => ret tt
  end.

(** The listeners that a change event on slider [s] reaches. *)
Definition change_listeners (w : World) (s : SliderId) : list Listener :=
  filter (fun l => Is_true (listens_to s CHANGE l)) (listeners w).

(** The slider [s] dispatches a change event: every listener registered for
    it on [s] runs, in the order of registration. *)
Definition dispatch_change (s : SliderId) : M unit :=
  ls <- gets (fun w => change_listeners w s) ;;
  run_listeners ls (mkEvent s).

(** The user moves the handle of slider [s] to [x]: the slider takes the
    value and dispatches a change event. *)
Definition user_moves_slider (s : SliderId) (x : JS.value) : M unit :=
  modify (with_sliders (alter (hold x) s)) ;;
  dispatch_change s.

End FieldNumberSlider.

(* ===================================================================== *)
(** * What the specification talks about *)
(* ===================================================================== *)

Module Spec.
Import Host FieldNumberSlider.

(** ** Values *)

(** A numeric initial value: a number other than NaN, or a non-empty string
    that converts to one. *)
Definition numeric (v : JS.value) : bool :=
  match v with
  | JS.Number n => negb (JS.is_nan n)
  | JS.Str EmptyString => false
  | JS.Str s => negb (JS.is_nan (JS.string_to_number s))
  | JS.Undefined | JS.Null => false
  end.

(** The text is coercible to a number: [Number(text)] is not NaN. *)
Definition coercible (text : string) : Prop := JS.isNaN (JS.Str text) = false.

(** The text is coercible to a finite number. *)
Definition coercible_to_finite (text : string) : Prop :=
  JS.is_finite (JS.to_number (JS.Str text)) = true.

(** [x] parsed as a float and formatted to one decimal place. *)
Definition formatted (x : JS.value) : string := JS.toFixed1 (JS.parseFloat x).

(** A value the spec expects of a slider: a number, or null. *)
Definition number_or_null (x : JS.value) : Prop :=
  match x with
  | JS.Number _ | JS.Null => True
  | _ => False
  end.

(** A validator under which a field's text stays coercible. *)
Definition keeps_coercible (v : option Validator) : Prop :=
  forall f t a, v = Some f -> f t = Some a -> coercible a.

(** ** Stores *)

(** The overlay of field [self] is open: the field holds its slider and its
    readout [r], an element of the document. *)
Definition overlay_open (w : World) (self : FieldId) (f : Field) (r : NodeId) : Prop :=
  fields w !! self = Some f /\ is_Some (valueSlider_ f) /\ valueReadout_ f = Some r /\
  is_Some (nodes w !! r).

(** Every registered listener is on a slider of the store. *)
Definition listeners_on_sliders (w : World) : Prop :=
  Forall (fun l => (src l < length (sliders w))%nat) (listeners w).

(** A key held by another class was returned by an earlier [listen]. *)
Definition colour_key_issued (w : World) : Prop :=
  forall k, FieldColourSlider_valueChangeEventKey_ w = Some k -> (k < length (listeners w))%nat.

(** The store once [showEditor_] has built the overlay and attached the
    listener, before it themes and positions the overlay. *)
Definition built (self : FieldId) (w : World) : World :=
  let n := length (nodes w) in
  let s := length (sliders w) in
  mkWorld
    (alter (set_valueSlider s) self (alter (set_valueReadout (n + 1)) self (fields w)))
    (sliders w ++
       [mkSlider JS.one_tenth JS.one_tenth JS.minus_one JS.one true (Some (n + 3)%nat)
          (JS.Number JS.zero) []])
    (nodes w ++
       [mkElement "div" "scratchColourPickerLabel" "" [(n + 2)%nat; (n + 1)%nat] [];
        mkElement "span" "scratchColourPickerReadout" "" [] [];
        mkElement "span" "scratchColourPickerLabelText" (Msg_VALUE_LABEL w) [] [];
        mkElement "div" "" "" [] [("background-color", "#EEEEEE")]])
    (listeners w ++ [mkListener s CHANGE (SliderCallback self) false])
    (Some (length (listeners w)))
    (FieldColourSlider_valueChangeEventKey_ w)
    (mkDropDownDiv [n; (n + 3)%nat] false ("#ffffff", "#dddddd")
       (category (dropDownDiv w)) None)
    (eventGroup w) (Msg_VALUE_LABEL w).

(** The overlay themed with category [c] and shown for [self]. *)
Definition positioned (self : FieldId) (c : option string) (w : World) : World :=
  with_dropDownDiv (fun d => mkDropDownDiv (content d) true (colour d) c (Some self)) w.

(** What [updateSliderHandles_] does to the slider of a field with [text]. *)
Definition sync_handle (text : string) (sl : Slider) : Slider :=
  let num := JS.parseFloat (JS.Str text) in
  set_sliderValue num (if JS.equals_zero num then set_sliderValue JS.one sl else sl).

(** The store after [showEditor_] ran to its end for the field [f] in a
    block of category [c]. *)
Definition shown (self : FieldId) (f : Field) (c : option string) (w : World) : World :=
  with_nodes (alter (set_textContent (text_ f)) (length (nodes w) + 1)%nat)
    (with_sliders (alter (sync_handle (text_ f)) (length (sliders w)))
       (positioned self c (built self w))).

(** The store after [dispose]. *)
Definition disposed (self : FieldId) (w : World) : World :=
  with_fields (alter (set_sourceBlock None) self)
    (with_eventGroup ""
       (with_listeners
          (match FieldColourSlider_valueChangeEventKey_ w with
           | Some k => alter mark_removed k
           | None => fun ls => ls
           end) w)).

(** The store with the restrictor of every field forgotten: what is left
    when the min, max and precision given at construction are ignored. *)
Definition forget_restrictor (f : Field) : Field :=
  mkField (text_ f) (validator_ f) (mkRestrictor JS.Undefined JS.Undefined JS.Undefined)
    (argType_ f) (sourceBlock_ f) (valueSlider_ f) (valueReadout_ f).

Definition forget_bounds (w : World) : World := with_fields (fmap forget_restrictor) w.

(** The slider [s] holding the value [x]. *)
Definition holding (s : SliderId) (x : JS.value) (w : World) : World :=
  with_sliders (alter (hold x) s) w.

(** ** The life of a field *)

(** What happens to a field after its construction: its editor is opened,
    the user moves the handle of its slider to [x], it is disposed. *)
Inductive Step : Type :=
| Open
| Change (x : JS.value)
| Close.

Definition run_step (self : FieldId) (st : Step) : M unit :=
  match st with
  | Open => showEditor_ self
  | Change x =>
      bind (this self) (fun f =>
        match valueSlider_ f with
        | Some s => user_moves_slider s x
        | None => ret tt
        end)
  | Close => dispose self
  end.

(** The store after the steps, whether or not one of them throws. *)
Fixpoint life (self : FieldId) (steps : list Step) (w : World) : World :=
  match steps with
  | st :: rest => life self rest (run_step self st w).2
  | [] => w
  end.

Definition slider_step (st : Step) : Prop :=
  match st with
  | Change x => number_or_null x
  | _ => True
  end.

(** Disposing the fields [selves] one after the other. *)
Fixpoint dispose_all (selves : list FieldId) (w : World) : World :=
  match selves with
  | self :: rest => dispose_all rest (dispose self w).2
  | [] => w
  end.

(** ** Examples *)

Definition a_block : Block := mkBlock (Some (mkParentBlock (Some "motion"))).

(** A field as a block definition creates it, attached to its block. *)
Definition a_field (v : JS.value) : Field :=
  set_sourceBlock (Some a_block) (fromJson [("value", v)]).

(** A store with the fields of two blocks and an empty overlay. *)
Definition a_world : World :=
  mkWorld [a_field (JS.Str "0.5"); a_field (JS.Number JS.zero)] [] [] [] None None
    (mkDropDownDiv [] false ("", "") None None) "" "Value".

(** The same store once the editor of field 0 is open. *)
Definition an_open_world : World := Eval vm_compute in (showEditor_ 0%nat a_world).2.

End Spec.

(* ===================================================================== *)
(** * Facts about the JavaScript values *)
(* ===================================================================== *)

Module JSFacts.
Import JS.

Local Abbreviation digits s := (all_chars is_digit s = true).
Local Notation "a +++ b" := (String.append a b) (at level 60, right associativity).

Definition starts_with_digit (s : string) : bool :=
  match s with String c _ => is_digit c | EmptyString => false end.

Lemma all_chars_app p a b : all_chars p (a +++ b) = all_chars p a && all_chars p b.
Proof. induction a as [|c a IH]; cbn; [reflexivity|]. rewrite IH. apply andb_assoc. Qed.

Lemma span_digits_app a r :
  digits a -> starts_with_digit r = false -> span_digits (a +++ r) = (a, r).
Proof.
  intros Ha Hr. induction a as [|c a IH]; cbn in *.
  - destruct r as [|c r]; cbn in *; [reflexivity|]. rewrite Hr. reflexivity.
  - apply andb_true_iff in Ha as [Hc Ha]. rewrite Hc, (IH Ha). reflexivity.
Qed.

Lemma digit_not_sign c r : is_digit c = true -> take_sign (String c r) = (false, String c r).
Proof.
  destruct c as [[] [] [] [] [] [] [] []]; cbn; intros; try discriminate; reflexivity.
Qed.

Lemma digit_not_Infinity c r : is_digit c = true -> strip_prefix "Infinity" (String c r) = None.
Proof.
  destruct c as [[] [] [] [] [] [] [] []]; cbn; intros; try discriminate; reflexivity.
Qed.

(** The text of an exponent part. *)
Definition exponent_text (neg : bool) (ed : string) : string :=
  (if neg then "e-" else "e+") +++ ed.

(** What may follow the digits of a numeral: nothing, or an exponent. *)
Inductive numeral_end : string -> Prop :=
| end_nothing : numeral_end ""
| end_exponent neg ed : digits ed -> ed <> "" -> numeral_end (exponent_text neg ed).

Lemma numeral_end_no_digit t : numeral_end t -> starts_with_digit t = false.
Proof. destruct 1 as [|[] ed]; reflexivity. Qed.

Lemma take_exponent_end t : numeral_end t -> exists ex, take_exponent t = (ex, "").
Proof.
  destruct 1 as [|neg ed Hd Hne]; [eexists; reflexivity|].
  pose proof (span_digits_app ed "" Hd eq_refl) as Hs.
  assert (ed +++ "" = ed) as He by (clear; induction ed; cbn; congruence).
  rewrite He in Hs.
  destruct ed as [|c ed]; [congruence|].
  destruct neg; cbn [exponent_text String.append take_exponent]; cbn -[span_digits digits_value].
  - rewrite Hs. eexists; reflexivity.
  - rewrite Hs. eexists; reflexivity.
Qed.

(** A string that [lex_decimal] takes whole. *)
Definition accepted (s : string) : Prop := exists l, lex_decimal s = Some (l, "").

Lemma accepted_integer ip t :
  digits ip -> ip <> "" -> numeral_end t -> accepted (ip +++ t).
Proof.
  intros Hd Hne Ht. unfold accepted, lex_decimal.
  destruct ip as [|c ip]; [congruence|]. cbn [String.append].
  pose proof Hd as Hc. cbn in Hc. apply andb_true_iff in Hc as [Hc _].
  rewrite (digit_not_sign _ _ Hc), (digit_not_Infinity _ _ Hc).
  change (String c (ip +++ t)) with (String c ip +++ t).
  rewrite (span_digits_app _ _ Hd (numeral_end_no_digit _ Ht)).
  destruct (take_exponent_end _ Ht) as [ex Hex].
  destruct Ht as [|[] ed ? ?]; cbn [exponent_text String.append] in *.
  - eexists. reflexivity.
  - change (String "e" (String "-" ed)) with (exponent_text true ed) in *. 
    unfold exponent_text in *. cbn [String.append] in *. rewrite Hex. eexists; reflexivity.
  - rewrite Hex. eexists; reflexivity.
Qed.

Lemma append_empty s : s +++ "" = s.
Proof. induction s; cbn; congruence. Qed.

Lemma accepted_fraction ip fp t :
  digits ip -> ip <> "" -> digits fp -> numeral_end t ->
  accepted (ip +++ String "." (fp +++ t)).
Proof.
  intros Hd Hne Hf Ht. unfold accepted, lex_decimal.
  destruct ip as [|c ip]; [congruence|]. cbn [String.append].
  pose proof Hd as Hc. cbn in Hc. apply andb_true_iff in Hc as [Hc _].
  rewrite (digit_not_sign _ _ Hc), (digit_not_Infinity _ _ Hc).
  change (String c (ip +++ String "." (fp +++ t))) with (String c ip +++ String "." (fp +++ t)).
  rewrite (span_digits_app (String c ip) (String "." (fp +++ t)) Hd eq_refl).
  rewrite (span_digits_app _ _ Hf (numeral_end_no_digit _ Ht)).
  destruct (take_exponent_end _ Ht) as [ex ->]. eexists; reflexivity.
Qed.

Lemma accepted_negative s :
  starts_with_digit s = true -> accepted s -> accepted (String "-" s).
Proof.
  destruct s as [|c r]; [discriminate|]. cbn [starts_with_digit]. intros Hc [l Hl].
  unfold accepted, lex_decimal in *. cbn [take_sign].
  rewrite (digit_not_sign _ _ Hc) in Hl. rewrite (digit_not_Infinity _ _ Hc) in *.
  repeat case_match; simplify_eq; eauto.
Qed.

(** ** White space *)

Local Abbreviation no_space s := (all_chars (fun c => negb (is_space c)) s = true).

Lemma digit_no_space c : is_digit c = true -> negb (is_space c) = true.
Proof.
  destruct c as [[] [] [] [] [] [] [] []]; cbn; intros; try discriminate; reflexivity.
Qed.

Lemma digits_no_space s : digits s -> no_space s.
Proof.
  induction s as [|c s IH]; cbn; [reflexivity|].
  intros [Hc Hs]%andb_true_iff. rewrite (digit_no_space _ Hc). auto.
Qed.

Lemma drop_spaces_no_space s : no_space s -> drop_spaces s = s.
Proof.
  destruct s as [|c s]; cbn; [reflexivity|]. intros [Hc _]%andb_true_iff.
  destruct (is_space c); [discriminate | reflexivity].
Qed.

Lemma rev_string_rev_string s a b : rev_string b (rev_string a s) = rev_string (s +++ b) a.
Proof. revert a b. induction s as [|c s IH]; intros a b; cbn; [reflexivity|]. apply IH. Qed.

Lemma all_chars_rev_string p s a :
  all_chars p (rev_string a s) = all_chars p s && all_chars p a.
Proof.
  revert a. induction s as [|c s IH]; intros a; cbn; [reflexivity|].
  rewrite IH. cbn. destruct (p c), (all_chars p s), (all_chars p a); reflexivity.
Qed.

Lemma trim_no_space s : no_space s -> trim s = s.
Proof.
  intros Hs. unfold trim. rewrite (drop_spaces_no_space s Hs).
  rewrite drop_spaces_no_space by (rewrite all_chars_rev_string, Hs; reflexivity).
  rewrite rev_string_rev_string. cbn. apply append_empty.
Qed.

(** ** Rounding never gives NaN *)

Lemma round_ratio_not_nan neg n d : is_nan (round_ratio neg n d) = false.
Proof. unfold round_ratio. repeat case_match; reflexivity. Qed.

Lemma round_decimal_not_nan neg m e : is_nan (round_decimal neg m e) = false.
Proof. unfold round_decimal. repeat case_match; auto using round_ratio_not_nan. Qed.

Lemma literal_value_not_nan l : is_nan (literal_value l) = false.
Proof. destruct l; cbn; auto using round_decimal_not_nan. Qed.

Lemma accepted_parse_float s :
  accepted s -> no_space s -> is_nan (parse_float_string s) = false.
Proof.
  intros [l Hl] Hs. unfold parse_float_string.
  rewrite (drop_spaces_no_space s Hs), Hl. apply literal_value_not_nan.
Qed.

Lemma accepted_string_to_number s :
  accepted s -> no_space s -> is_nan (string_to_number s) = false.
Proof.
  intros [l Hl] Hs. unfold string_to_number. rewrite (trim_no_space s Hs).
  destruct s; [reflexivity|]. rewrite Hl. apply literal_value_not_nan.
Qed.

(** ** The texts of numbers are numerals *)

Lemma digits_string_of_uint d : digits (NilEmpty.string_of_uint d).
Proof. induction d; cbn; auto. Qed.

Lemma digits_decimal n : digits (decimal n).
Proof.
  unfold decimal, NilZero.string_of_uint.
  destruct (N.to_uint (Z.to_N n)); try reflexivity; apply digits_string_of_uint.
Qed.

Lemma decimal_not_empty n : decimal n <> "".
Proof.
  unfold decimal, NilZero.string_of_uint.
  destruct (N.to_uint (Z.to_N n)); discriminate.
Qed.

Lemma digits_zeros k : digits (zeros k).
Proof. induction k; cbn; auto. Qed.

Lemma digits_app a b : digits a -> digits b -> digits (a +++ b).
Proof. intros Ha Hb. rewrite all_chars_app, Ha, Hb. reflexivity. Qed.

Lemma digits_substring i j s : digits s -> digits (substring i j s).
Proof.
  revert i j. induction s as [|c s IH]; intros [|i] [|j] Hs; cbn in *; auto.
  all: apply andb_true_iff in Hs as [Hc Hs]; auto.
  rewrite Hc. cbn. auto.
Qed.

(** A numeral: a text [lex_decimal] takes whole, that starts with a digit
    and holds no white space. *)
Definition numeral (s : string) : Prop :=
  accepted s /\ starts_with_digit s = true /\ no_space s.

Lemma starts_with_digit_app a b :
  digits a -> a <> "" -> starts_with_digit (a +++ b) = true.
Proof. destruct a; [congruence|]. cbn. intros [-> _]%andb_true_iff _. reflexivity. Qed.

Lemma numeral_end_no_space t : numeral_end t -> no_space t.
Proof.
  destruct 1 as [|neg ed Hd _]; [reflexivity|].
  unfold exponent_text. rewrite all_chars_app, (digits_no_space _ Hd). destruct neg; reflexivity.
Qed.

Lemma numeral_integer ip t :
  digits ip -> ip <> "" -> numeral_end t -> numeral (ip +++ t).
Proof.
  intros Hd Hne Ht. split; [|split].
  - by apply accepted_integer.
  - by apply starts_with_digit_app.
  - rewrite all_chars_app, (digits_no_space _ Hd), (numeral_end_no_space _ Ht). reflexivity.
Qed.

Lemma numeral_fraction ip fp t :
  digits ip -> ip <> "" -> digits fp -> numeral_end t ->
  numeral (ip +++ String "." (fp +++ t)).
Proof.
  intros Hd Hne Hf Ht. split; [|split].
  - by apply accepted_fraction.
  - by apply starts_with_digit_app.
  - rewrite all_chars_app. cbn. rewrite all_chars_app.
    rewrite (digits_no_space _ Hd), (digits_no_space _ Hf), (numeral_end_no_space _ Ht).
    reflexivity.
Qed.

Lemma format_digits_numeral ds n : digits ds -> ds <> "" -> numeral (format_digits ds n).
Proof.
  intros Hd Hne. unfold format_digits.
  pose proof (end_exponent (n - 1 <? 0) (decimal (Z.abs (n - 1)))
                (digits_decimal _) (decimal_not_empty _)) as Hex.
  unfold exponent_text in Hex.
  destruct ((Z.of_nat (String.length ds) <=? n) && (n <=? 21)).
  { rewrite <- (append_empty (_ +++ zeros _)).
    apply numeral_integer; [apply digits_app; auto using digits_zeros | | constructor].
    destruct ds; [congruence | discriminate]. }
  destruct ((0 <? n) && (n <=? 21)) eqn:Hn.
  { rewrite <- (append_empty (substring (Z.to_nat n) _ _)).
    apply numeral_fraction; auto using digits_substring; [|constructor].
    destruct ds as [|c ds]; [congruence|].
    destruct (Z.to_nat n) eqn:Hz; [lia | discriminate]. }
  destruct ((-6 <? n) && (n <=? 0)).
  { change ("0." +++ zeros (Z.to_nat (- n)) +++ ds)
      with ("0" +++ String "." (zeros (Z.to_nat (- n)) +++ ds)).
    rewrite <- (append_empty (zeros _ +++ ds)).
    apply numeral_fraction; auto using digits_app, digits_zeros; try discriminate; constructor. }
  destruct ds as [|c [|c' r]]; [congruence| |].
  - apply (numeral_integer (String c "")); auto.
  - change (numeral (String c "" +++ String "." (String c' r +++
              (if n - 1 <? 0 then "e-" else "e+") +++ decimal (Z.abs (n - 1))))).
    cbn in Hd. apply andb_true_iff in Hd as [Hc Hr].
    apply numeral_fraction; auto; try discriminate; cbn; rewrite Hc; reflexivity.
Qed.

Lemma positive_to_string_numeral m e : numeral (positive_to_string m e).
Proof.
  unfold positive_to_string. destruct (shortest_digits _ _ _ _ _) as [s n].
  apply format_digits_numeral; auto using digits_decimal, decimal_not_empty.
Qed.

(** A text that Number and parseFloat read as a number. *)
Definition numeric_text (s : string) : Prop :=
  is_nan (string_to_number s) = false /\ is_nan (parse_float_string s) = false.

Lemma numeral_numeric_text s : numeral s -> numeric_text s.
Proof.
  intros (Ha & _ & Hs). split; auto using accepted_string_to_number, accepted_parse_float.
Qed.

Lemma negative_numeral_numeric_text s : numeral s -> numeric_text (String "-" s).
Proof.
  intros (Ha & Hd & Hs).
  assert (accepted (String "-" s)) by auto using accepted_negative.
  assert (no_space (String "-" s)) by (cbn; exact Hs).
  split; auto using accepted_string_to_number, accepted_parse_float.
Qed.

Lemma number_to_string_numeric n : is_nan n = false -> numeric_text (number_to_string n).
Proof.
  destruct n as [|[]|[]|[] m e]; intros Hn; try discriminate.
  1-4: split; reflexivity.
  - apply negative_numeral_numeric_text, positive_to_string_numeral.
  - apply numeral_numeric_text, positive_to_string_numeral.
Qed.

Lemma toFixed1_numeric n : is_nan n = false -> numeric_text (toFixed1 n).
Proof.
  destruct n as [|neg|neg|neg m e]; intros Hn; try discriminate.
  - by apply number_to_string_numeric.
  - split; reflexivity.
  - unfold toFixed1. destruct (compare_bin_dec _ _ _ _); try by apply number_to_string_numeric.
    assert (numeral (decimal (nearest_tenths m e / 10) +++
                     String "." (decimal (nearest_tenths m e mod 10)))) as Hnum.
    { rewrite <- (append_empty (decimal (_ mod 10))).
      apply numeral_fraction; auto using digits_decimal, decimal_not_empty. constructor. }
    destruct neg; auto using negative_numeral_numeric_text, numeral_numeric_text.
Qed.
End JSFacts.

(* ===================================================================== *)
(** * Running the methods *)
(* ===================================================================== *)

Module Run.
Import Host FieldNumberSlider Spec.
Local Open Scope js_scope.

Section ListFacts.
Context {A : Type}.
Implicit Types (l r : list A) (f : A -> A).

Lemma alter_at_length f l r : alter f (length l) (l ++ r) = l ++ alter f 0%nat r.
Proof. rewrite <- (Nat.add_0_r (length l)) at 1. apply alter_app_r. Qed.

Lemma lookup_at_length_plus l r k : (l ++ r) !! (length l + k)%nat = r !! k.
Proof. rewrite lookup_app_r by lia. f_equal. lia. Qed.

Lemma lookup_at_length l r : (l ++ r) !! length l = r !! 0%nat.
Proof. rewrite <- (Nat.add_0_r (length l)) at 1. apply lookup_at_length_plus. Qed.

Lemma alter_idempotent f l i : (forall x, f (f x) = f x) -> alter f i (alter f i l) = alter f i l.
Proof. intros Hf. rewrite list_alter_alter_eq. apply list_alter_ext; auto. intros; apply Hf. Qed.

Lemma alter_fixed f l i : (forall x, l !! i = Some x -> f x = x) -> alter f i l = l.
Proof.
  intros Hf. rewrite <- (list_alter_id id l i) at 2 by reflexivity.
  apply list_alter_ext; auto.
Qed.
End ListFacts.

(** Lists built by appending, looked up and altered at their end. *)
Ltac norm_lists :=
  repeat first
    [ rewrite <- app_assoc
    | rewrite length_app
    | rewrite <- Nat.add_assoc
    | rewrite alter_app_r
    | rewrite alter_at_length
    | rewrite lookup_at_length_plus
    | rewrite lookup_at_length
    | progress cbn [app length Nat.add alter list_alter lookup list_lookup] ].

(** One step of a computation on an explicit store. *)
Ltac exec :=
  cbv beta iota zeta delta
    [bind ret gets modify deref throw this
     with_nodes with_sliders with_fields with_listeners with_dropDownDiv
     with_numberSliderKey with_eventGroup
     fields sliders nodes listeners dropDownDiv eventGroup Msg_VALUE_LABEL
     FieldNumberSlider_valueChangeEventKey_ FieldColourSlider_valueChangeEventKey_
     content visible colour category owner
     fst snd mbind option_bind fmap option_fmap option_map].

(** The same, with the setters of sliders and elements. *)
Ltac exec_objects :=
  exec;
  cbv beta iota zeta delta
    [set_unitIncrement set_step set_minimum set_maximum set_moveToPointEnabled set_element
     unitIncrement step minimum maximum moveToPointEnabled element_ sliderValue setValueCalls
     set_className set_textContent add_child add_style
     tagName className textContent childNodes style].

Lemma showEditor_eval self w :
  showEditor_ self w =
    match fields w !! self with
    | None => (Throw (TypeError "this is undefined"), built self w)
    | Some f =>
        match sourceBlock_ f with
        | None => (Throw (TypeError "Cannot read property parentBlock_ of null"), built self w)
        | Some b =>
            match parentBlock_ b with
            | None => (Throw (TypeError "Cannot read property getCategory of null"), built self w)
            | Some p =>
                (updateSliderHandles_ self ;; updateDom_ self)
                  (positioned self (category_ p) (built self w))
            end
        end
    end.
Proof.
  destruct w as [fs ss ns ls k1 k2 dd g msg].
  unfold showEditor_, createLabelDom_, new_Slider, slider_render, createElement,
    slider_setUnitIncrement, slider_setStep, slider_setMinimum, slider_setMaximum,
    slider_setMoveToPointEnabled, slider_getElement, goog_style_setStyle, goog_events_listen,
    setAttribute_class, assign_textContent, appendChild, dd_hideWithoutAnimation,
    dd_clearContent, dd_content_appendChild, dd_setColour, dd_setCategory,
    dd_showPositionedByBlock.
  do 3 (exec_objects; norm_lists).
  rewrite !list_lookup_alter_eq.
  unfold built, positioned. exec.
  destruct (fs !! self) as [f|] eqn:Hf; exec.
  - destruct f as [t v r a [[[p|]]|] vs vr]; exec; norm_lists; reflexivity.
  - norm_lists; reflexivity.
Qed.

Lemma updateSliderHandles_eval self w f s :
  fields w !! self = Some f -> valueSlider_ f = Some s ->
  updateSliderHandles_ self w = (Normal tt, with_sliders (alter (sync_handle (text_ f)) s) w).
Proof.
  intros Hf Hs. destruct w as [fs ss ns ls k1 k2 dd g msg]. cbn in Hf.
  unfold updateSliderHandles_, getValue, slider_setValue. exec. rewrite Hf. exec. rewrite Hs.
  exec. rewrite Hf. exec. unfold sync_handle.
  destruct (JS.equals_zero _); exec; [rewrite list_alter_alter_eq|]; reflexivity.
Qed.

Lemma updateDom_eval self w f r :
  fields w !! self = Some f -> is_Some (valueSlider_ f) -> valueReadout_ f = Some r ->
  updateDom_ self w = (Normal tt, with_nodes (alter (set_textContent (text_ f)) r) w).
Proof.
  intros Hf [s Hs] Hr. destruct w as [fs ss ns ls k1 k2 dd g msg]. cbn in Hf.
  unfold updateDom_, getText, assign_textContent. exec. rewrite Hf. exec. rewrite Hs.
  exec. rewrite Hf. exec. rewrite Hr. exec. reflexivity.
Qed.

Lemma showEditor_normal self w f b p :
  fields w !! self = Some f -> sourceBlock_ f = Some b -> parentBlock_ b = Some p ->
  showEditor_ self w = (Normal tt, shown self f (category_ p) w).
Proof.
  intros Hf Hb Hp. rewrite showEditor_eval, Hf, Hb, Hp.
  set (f' := set_valueSlider (length (sliders w)) (set_valueReadout (length (nodes w) + 1) f)).
  assert (fields (positioned self (category_ p) (built self w)) !! self = Some f') as Hf'.
  { cbn. rewrite !list_lookup_alter_eq, Hf. reflexivity. }
  unfold bind at 1.
  rewrite (updateSliderHandles_eval _ _ f' (length (sliders w)) Hf' eq_refl).
  rewrite (updateDom_eval self _ f' (length (nodes w) + 1)); [reflexivity | exact Hf' | by eexists | reflexivity].
Qed.

(** Whatever way [showEditor_] completes, it leaves the fields, the
    listeners, the keys and the overlay's content as [built] has them, and
    one more slider. *)
Lemma showEditor_frame self w :
  let w' := (showEditor_ self w).2 in
  fields w' = fields (built self w) /\
  listeners w' = listeners (built self w) /\
  FieldNumberSlider_valueChangeEventKey_ w' = Some (length (listeners w)) /\
  FieldColourSlider_valueChangeEventKey_ w' = FieldColourSlider_valueChangeEventKey_ w /\
  content (dropDownDiv w') = [length (nodes w); (length (nodes w) + 3)%nat] /\
  length (nodes w') = (length (nodes w) + 4)%nat /\
  exists sl, sliders w' = sliders w ++ [sl] /\
    unitIncrement sl = JS.one_tenth /\ step sl = JS.one_tenth /\
    minimum sl = JS.minus_one /\ maximum sl = JS.one /\ moveToPointEnabled sl = true.
Proof.
  rewrite showEditor_eval.
  assert (let w' := built self w in
    fields w' = fields (built self w) /\
    listeners w' = listeners (built self w) /\
    FieldNumberSlider_valueChangeEventKey_ w' = Some (length (listeners w)) /\
    FieldColourSlider_valueChangeEventKey_ w' = FieldColourSlider_valueChangeEventKey_ w /\
    content (dropDownDiv w') = [length (nodes w); (length (nodes w) + 3)%nat] /\
    length (nodes w') = (length (nodes w) + 4)%nat /\
    exists sl, sliders w' = sliders w ++ [sl] /\
      unitIncrement sl = JS.one_tenth /\ step sl = JS.one_tenth /\
      minimum sl = JS.minus_one /\ maximum sl = JS.one /\ moveToPointEnabled sl = true) as Hbuilt.
  { cbn. rewrite length_app. cbn. repeat split; eauto 10. }
  destruct (fields w !! self) as [f|] eqn:Hf; [|exact Hbuilt].
  destruct (sourceBlock_ f) as [b|] eqn:Hb; [|exact Hbuilt].
  destruct (parentBlock_ b) as [p|] eqn:Hp; [|exact Hbuilt].
  pose proof (showEditor_normal self w f b p Hf Hb Hp) as Hn.
  rewrite showEditor_eval, Hf, Hb, Hp in Hn. rewrite Hn. clear Hn Hbuilt.
  destruct w as [fs ss ns ls k1 k2 dd g msg]. cbn.
  rewrite length_alter, length_app, alter_at_length. cbn.
  repeat split; eauto 10.
  eexists; split; [reflexivity|]. unfold sync_handle.
  destruct (JS.equals_zero _); cbn; auto.
Qed.

Lemma setValue_eval self w f t :
  fields w !! self = Some f ->
  setValue self t w =
    (Normal tt, match callValidator f t with
                | Some a => with_fields (alter (set_text a) self) w
                | None => w
                end).
Proof.
  intros Hf. destruct w as [fs ss ns ls k1 k2 dd g msg]. cbn in Hf.
  unfold setValue. exec. rewrite Hf. exec. destruct (callValidator f t); reflexivity.
Qed.

Lemma sliderCallback_eval self event w sl :
  sliders w !! target event = Some sl ->
  sliderCallbackFactory_ self event w =
    if JS.is_not_null (sliderValue sl)
    then (setValue self (formatted (JS.or_else (sliderValue sl) (JS.Number JS.zero))) ;;
          updateDom_ self) w
    else (Normal tt, w).
Proof.
  intros Hs. destruct w as [fs ss ns ls k1 k2 dd g msg]. cbn in Hs.
  unfold sliderCallbackFactory_, slider_getValue. exec. rewrite Hs. exec.
  destruct (JS.is_not_null _); reflexivity.
Qed.

(** The committed-change path on a field whose overlay is open. *)
Lemma commit_eval self w f r t a :
  overlay_open w self f r -> callValidator f t = Some a ->
  (setValue self t ;; updateDom_ self) w =
    (Normal tt, with_nodes (alter (set_textContent a) r)
                  (with_fields (alter (set_text a) self) w)).
Proof.
  intros (Hf & Hs & Hr & _) Ha. unfold bind.
  rewrite (setValue_eval _ _ _ _ Hf), Ha.
  rewrite (updateDom_eval self _ (set_text a f) r); [reflexivity | | exact Hs | exact Hr].
  destruct w; cbn in *. rewrite list_lookup_alter_eq, Hf. reflexivity.
Qed.

Lemma dispose_eval self w : dispose self w = (Normal tt, disposed self w).
Proof.
  destruct w as [fs ss ns ls k1 k2 dd g msg].
  unfold dispose, goog_events_unlistenByKey, Events_setGroup_false, Field_dispose, disposed.
  exec. destruct k2 as [k|]; exec; [|reflexivity].
  destruct (ls !! k) as [l|] eqn:Hl; exec.
  - destruct (removed l) eqn:Hr; exec; [|reflexivity].
    rewrite (alter_fixed mark_removed ls k); [reflexivity|].
    intros x Hx. rewrite Hl in Hx. injection Hx as <-.
    destruct l as [? ? ? rm]; cbn in Hr; subst rm; reflexivity.
  - rewrite (alter_fixed mark_removed ls k); [reflexivity|]. congruence.
Qed.
End Run.

(* ===================================================================== *)
(** * The properties of the specification *)
(* ===================================================================== *)

Import Host FieldNumberSlider Spec Run.

(** ** The slider callback *)

(** C1, as the spec states it, fails.  With the editor of field 0 open (its
    value is "0.5") and its slider holding [null], the callback leaves the
    value "0.5": nothing is committed, so the value is not "0.0". *)
Lemma null_event_commits_zero_counterexample :
  ~ (forall w self event sl f,
       fields w !! self = Some f ->
       sliders w !! target event = Some sl -> sliderValue sl = JS.Null ->
       exists f', fields (sliderCallbackFactory_ self event w).2 !! self = Some f' /\
                  text_ f' = "0.0").
Proof.
  intros H.
  destruct (H (holding 0 JS.Null an_open_world) 0%nat (mkEvent 0%nat) _ _
              eq_refl eq_refl eq_refl) as (f' & Hf & Ht).
  vm_compute in Hf. injection Hf as <-. discriminate Ht.
Qed.

(** C1, amended: for a change event whose value is [null] the callback
    commits nothing.  The guard [value !== null] skips [setValue] and
    [updateDom_], so the callback returns with the store as it was: the
    field's value and the readout keep what they held. *)
Theorem sliderCallback_null_event w self event sl :
  sliders w !! target event = Some sl -> sliderValue sl = JS.Null ->
  sliderCallbackFactory_ self event w = (Normal tt, w).
Proof.
  intros Hs Hnull. rewrite (sliderCallback_eval _ _ _ _ Hs), Hnull. reflexivity.
Qed.

Lemma sliderCallback_null_event_witness :
  (exists sl, sliders (holding 0 JS.Null an_open_world) !! 0%nat = Some sl /\
              sliderValue sl = JS.Null) /\
  sliderCallbackFactory_ 0 (mkEvent 0) (holding 0 JS.Null an_open_world) =
    (Normal tt, holding 0 JS.Null an_open_world).
Proof.
  split.
  - eexists. split; reflexivity.
  - eapply (sliderCallback_null_event _ 0%nat (mkEvent 0%nat)); reflexivity.
Defined.

(** The values the callback's [value || 0] keeps: the truthy ones, and the
    zeros, for which the default is the same number. *)
Lemma or_else_zero_formatted x :
  JS.truthy x = true \/ (exists neg, x = JS.Number (JS.Zero neg)) ->
  formatted (JS.or_else x (JS.Number JS.zero)) = formatted x.
Proof.
  unfold JS.or_else. intros [-> | [neg ->]]; [reflexivity|]. destruct neg; reflexivity.
Qed.

(** The other falsy values are replaced by 0, which is committed as "0.0". *)
Lemma or_else_zero_default x :
  JS.truthy x = false -> formatted (JS.or_else x (JS.Number JS.zero)) = "0.0".
Proof. unfold JS.or_else. intros ->. reflexivity. Qed.

(** A change event with a value other than [null], on a field whose overlay
    is open and whose validator accepts [t]: [t] becomes the field's value
    and the readout's text. *)
Lemma sliderCallback_commits w self event sl f r t :
  overlay_open w self f r ->
  sliders w !! target event = Some sl ->
  JS.is_not_null (sliderValue sl) = true ->
  t = formatted (JS.or_else (sliderValue sl) (JS.Number JS.zero)) ->
  callValidator f t = Some t ->
  exists w', sliderCallbackFactory_ self event w = (Normal tt, w') /\
    text_ <$> fields w' !! self = Some t /\
    textContent <$> nodes w' !! r = Some t /\
    sliders w' = sliders w /\ listeners w' = listeners w.
Proof.
  intros Ho Hs Hnn -> Hv.
  rewrite (sliderCallback_eval _ _ _ _ Hs), Hnn, (commit_eval _ _ _ _ _ _ Ho Hv).
  destruct Ho as (Hf & _ & _ & [el Hel]).
  eexists. split; [reflexivity|]. destruct w; cbn in *.
  rewrite !list_lookup_alter_eq, Hf, Hel. auto.
Qed.

(** C5, as the spec states it, fails.  With the editor of field 0 open and
    its slider holding NaN, a number and not [null], the callback commits
    "0.0", while NaN parsed as a float and formatted is "NaN". *)
Lemma change_commits_formatted_counterexample :
  ~ (forall w self event sl f r x,
       overlay_open w self f r ->
       callValidator f (formatted x) = Some (formatted x) ->
       sliders w !! target event = Some sl -> sliderValue sl = x -> x <> JS.Null ->
       text_ <$> fields (sliderCallbackFactory_ self event w).2 !! self = Some (formatted x)).
Proof.
  intros H.
  assert (overlay_open (holding 0 (JS.Number JS.NaN) an_open_world) 0
            (set_valueSlider 0 (set_valueReadout 1 (a_field (JS.Str "0.5")))) 1) as Ho.
  { repeat split; by eexists. }
  eassert (sliders (holding 0 (JS.Number JS.NaN) an_open_world) !! 0%nat = Some _) as Hs
    by reflexivity.
  specialize (H _ 0%nat (mkEvent 0%nat) _ _ _ (JS.Number JS.NaN) Ho eq_refl Hs eq_refl).
  vm_compute in H. assert (JS.Number JS.NaN <> JS.Null) as Hn by discriminate.
  specialize (H Hn). discriminate H.
Qed.

(** C5, amended: for a change event whose value [x] is not [null] and is
    truthy or a zero (for NaN, undefined and the empty string the callback
    substitutes 0), on a field whose overlay is open and whose validator, if
    it has one, accepts the formatted text unchanged: after the callback the
    field's value is [x] parsed as a float and formatted to one decimal
    place, and the readout's text is the same string. *)
Theorem change_commits_formatted w self event sl f r x :
  overlay_open w self f r ->
  sliders w !! target event = Some sl -> sliderValue sl = x ->
  x <> JS.Null ->
  JS.truthy x = true \/ (exists neg, x = JS.Number (JS.Zero neg)) ->
  callValidator f (formatted x) = Some (formatted x) ->
  exists w', sliderCallbackFactory_ self event w = (Normal tt, w') /\
    text_ <$> fields w' !! self = Some (formatted x) /\
    textContent <$> nodes w' !! r = Some (formatted x).
Proof.
  intros Ho Hs <- Hnn Hkept Hv.
  destruct (sliderCallback_commits w self event sl f r (formatted (sliderValue sl)) Ho Hs)
    as (w' & Hrun & Ht & Hr & _).
  - destruct (sliderValue sl); try reflexivity. congruence.
  - symmetry. by apply or_else_zero_formatted.
  - exact Hv.
  - eauto.
Qed.

Lemma change_commits_formatted_witness :
  exists w', sliderCallbackFactory_ 0 (mkEvent 0)
               (holding 0 (JS.Number JS.one_tenth) an_open_world) = (Normal tt, w') /\
    text_ <$> fields w' !! 0%nat = Some "0.1" /\
    textContent <$> nodes w' !! 1%nat = Some "0.1".
Proof.
  eapply (change_commits_formatted _ 0%nat (mkEvent 0%nat) _
            (set_valueSlider 0 (set_valueReadout 1 (a_field (JS.Str "0.5")))) 1%nat
            (JS.Number JS.one_tenth)).
  - repeat split; by eexists.
  - reflexivity.
  - reflexivity.
  - discriminate.
  - left; reflexivity.
  - reflexivity.
Defined.

Local Open Scope js_scope.

(** ** Disposal *)

Lemma disposed_idempotent self w : disposed self (disposed self w) = disposed self w.
Proof.
  destruct w as [fs ss ns ls k1 k2 dd g msg]. unfold disposed. exec.
  f_equal.
  - apply alter_idempotent. reflexivity.
  - destruct k2; [|reflexivity]. apply alter_idempotent. reflexivity.
Qed.

(** C2: disposing a field whose editor was never opened does not throw, and
    disposing it again does not throw either and leaves the store as the
    first disposal left it. *)
Theorem dispose_never_opened w self f :
  fields w !! self = Some f -> valueSlider_ f = None ->
  exists w1, dispose self w = (Normal tt, w1) /\ dispose self w1 = (Normal tt, w1).
Proof.
  intros _ _. exists (disposed self w). split; [apply dispose_eval|].
  rewrite dispose_eval, disposed_idempotent. reflexivity.
Qed.

Lemma dispose_never_opened_witness :
  (exists f, fields a_world !! 1%nat = Some f /\ valueSlider_ f = None) /\
  exists w1, dispose 1 a_world = (Normal tt, w1) /\ dispose 1 w1 = (Normal tt, w1).
Proof.
  split.
  - eexists; split; reflexivity.
  - eapply (dispose_never_opened a_world 1%nat); reflexivity.
Defined.

(** ** Construction *)

(** C4: the value of a constructed field is [String(v)] when the initial
    value [v] is numeric and "0" when it is absent or not numeric; it is what
    [getValue] then returns. *)
Theorem constructed_value v opt_min opt_max opt_precision opt_validator :
  text_ (FieldNumberSlider v opt_min opt_max opt_precision opt_validator) =
    (if numeric v then JS.to_string v else "0") /\
  forall w self,
    fields w !! self = Some (FieldNumberSlider v opt_min opt_max opt_precision opt_validator) ->
    getValue self w = (Normal (if numeric v then JS.to_string v else "0"), w).
Proof.
  assert (text_ (FieldNumberSlider v opt_min opt_max opt_precision opt_validator) =
            (if numeric v then JS.to_string v else "0")) as Ht.
  { unfold FieldNumberSlider. cbn [text_ addArgType set_argType Field_constructor].
    destruct v as [| |n|s]; try reflexivity.
    - destruct n as [|[]|[]|[] m e]; reflexivity.
    - destruct s as [|c s]; [reflexivity|].
      unfold JS.isNaN, numeric. cbn [JS.truthy JS.to_number andb JS.to_string].
      destruct (JS.is_nan _); reflexivity. }
  split; [exact Ht|].
  intros w self Hf. unfold getValue, bind, this, ret. rewrite Hf. cbn [deref ret].
  rewrite Ht. reflexivity.
Qed.

(** ** The slider handle *)

(** C6: on a field with its slider, [updateSliderHandles_] sets the slider
    once to the field's numeric value, and when that value is zero it sets
    the slider to 1 first; either way the slider ends on the field's value. *)
Theorem updateSliderHandles_calls w self f s sl :
  fields w !! self = Some f -> valueSlider_ f = Some s -> sliders w !! s = Some sl ->
  exists w' sl',
    updateSliderHandles_ self w = (Normal tt, w') /\
    sliders w' !! s = Some sl' /\
    setValueCalls sl' =
      setValueCalls sl ++
        (if JS.equals_zero (JS.parseFloat (JS.Str (text_ f)))
         then [JS.one; JS.parseFloat (JS.Str (text_ f))]
         else [JS.parseFloat (JS.Str (text_ f))]) /\
    sliderValue sl' = JS.Number (JS.parseFloat (JS.Str (text_ f))).
Proof.
  intros Hf Hs Hsl. rewrite (updateSliderHandles_eval _ _ _ _ Hf Hs).
  eexists _, _. split; [reflexivity|]. destruct w; cbn in *.
  rewrite list_lookup_alter_eq, Hsl. split; [reflexivity|].
  unfold sync_handle. destruct (JS.equals_zero _); cbn; [rewrite <- app_assoc|]; auto.
Qed.

Lemma updateSliderHandles_calls_witness :
  exists w' sl',
    updateSliderHandles_ 0 (with_fields (alter (set_text "0") 0%nat) an_open_world)
      = (Normal tt, w') /\
    sliders w' !! 0%nat = Some sl' /\
    setValueCalls sl' = [JS.Fin false 4503599627370496 (-53); JS.one; JS.Zero false] /\
    sliderValue sl' = JS.Number (JS.Zero false).
Proof.
  exact (updateSliderHandles_calls
           (with_fields (alter (set_text "0") 0%nat) an_open_world) 0%nat
           (set_text "0" (set_valueSlider 0 (set_valueReadout 1 (a_field (JS.Str "0.5")))))
           0%nat
           (mkSlider JS.one_tenth JS.one_tenth JS.minus_one JS.one true (Some 3%nat)
              (JS.Number (JS.Fin false 4503599627370496 (-53)))
              [JS.Fin false 4503599627370496 (-53)])
           eq_refl eq_refl eq_refl).
Defined.

(** ** Opening the editor *)

(** C8: however [showEditor_] completes, the overlay's content is then the
    label and the slider element it created (what was there before is
    gone), and the field's slider is a new one with minimum -1, maximum 1,
    step 0.1, unit increment 0.1 and move-to-point enabled, whatever
    restrictor the field was built with. *)
Theorem showEditor_builds_fixed_slider w self :
  content (dropDownDiv (showEditor_ self w).2) =
    [length (nodes w); (length (nodes w) + 3)%nat] /\
  valueSlider_ <$> fields (showEditor_ self w).2 !! self =
    (fun _ => Some (length (sliders w))) <$> fields w !! self /\
  exists sl,
    sliders (showEditor_ self w).2 !! length (sliders w) = Some sl /\
    minimum sl = JS.minus_one /\ maximum sl = JS.one /\
    step sl = JS.one_tenth /\ unitIncrement sl = JS.one_tenth /\
    moveToPointEnabled sl = true.
Proof.
  destruct (showEditor_frame self w) as (Hf & _ & _ & _ & Hc & _ & sl & Hs & Hu & Hst & Hmin & Hmax & Hmv).
  split; [exact Hc|]. split.
  - rewrite Hf. cbn. rewrite !list_lookup_alter_eq. destruct (fields w !! self); reflexivity.
  - exists sl. rewrite Hs, lookup_at_length. auto 10.
Qed.

(** The slider's constants are the Number values of the source's literals. *)
Lemma literal_values :
  JS.string_to_number "-1" = JS.minus_one /\ JS.string_to_number "1" = JS.one /\
  JS.string_to_number "0.1" = JS.one_tenth /\ JS.string_to_number "0" = JS.zero.
Proof. repeat split; reflexivity. Qed.

(** ** Listeners *)

Lemma run_single_listener (c : M unit) w : (c ;; ret tt) w = c w.
Proof. unfold bind, ret. destruct (c w) as [[[]|e] w']; reflexivity. Qed.

Lemma no_change_listeners s ls :
  Forall (fun l => src l <> s) ls ->
  filter (fun l => Is_true (listens_to s CHANGE l)) ls = [].
Proof.
  induction 1 as [|l ls Hl _ IH]; [reflexivity|].
  rewrite filter_cons_False; [exact IH|].
  unfold listens_to. intros H. apply Is_true_true in H.
  apply andb_true_iff in H as [H _]. apply andb_true_iff in H as [_ H].
  apply Nat.eqb_eq in H. contradiction.
Qed.

(** Opening the editor appends one listener, on the new slider. *)
Lemma showEditor_listeners self w :
  listeners (showEditor_ self w).2 =
    listeners w ++ [mkListener (length (sliders w)) CHANGE (SliderCallback self) false] /\
  length (sliders (showEditor_ self w).2) = S (length (sliders w)).
Proof.
  destruct (showEditor_frame self w) as (_ & Hl & _ & _ & _ & _ & sl & Hs & _).
  split; [exact Hl|]. rewrite Hs, length_app. cbn. lia.
Qed.

(** The listener of the first opening is still registered, on the first
    slider. *)
Lemma reopened_editor_keeps_stale_listener w self :
  listeners (showEditor_ self (showEditor_ self w).2).2 !! length (listeners w) =
    Some (mkListener (length (sliders w)) CHANGE (SliderCallback self) false).
Proof.
  destruct (showEditor_listeners self w) as [Hl1 _].
  destruct (showEditor_listeners self (showEditor_ self w).2) as [Hl2 _].
  rewrite Hl2, Hl1, <- app_assoc, lookup_at_length. reflexivity.
Qed.

(** Disposal leaves every listener but the one another class's key names. *)
Lemma dispose_keeps_listener self w k l :
  listeners w !! k = Some l ->
  FieldColourSlider_valueChangeEventKey_ w <> Some k ->
  listeners (dispose self w).2 !! k = Some l /\
  FieldColourSlider_valueChangeEventKey_ (dispose self w).2 =
    FieldColourSlider_valueChangeEventKey_ w.
Proof.
  intros Hl Hk. rewrite dispose_eval. destruct w as [fs ss ns ls k1 k2 dd g msg].
  unfold disposed. exec. cbn in *. split; [|reflexivity].
  destruct k2 as [k'|]; [|exact Hl].
  rewrite list_lookup_alter_ne; [exact Hl | congruence].
Qed.

Lemma dispose_all_keeps_listener selves w k l :
  listeners w !! k = Some l ->
  FieldColourSlider_valueChangeEventKey_ w <> Some k ->
  listeners (dispose_all selves w) !! k = Some l.
Proof.
  revert w. induction selves as [|self selves IH]; intros w Hl Hk; [exact Hl|].
  cbn [dispose_all]. destruct (dispose_keeps_listener self w k l Hl Hk) as [Hl' Hk'].
  apply IH; [exact Hl' | congruence].
Qed.

(** C10: the key of the change listener is one variable of the class.  After
    field [a] and then field [b] opened their editors it names the
    listener of [b], and no sequence of disposals removes the listener of
    [a], which is still registered. *)
Theorem shared_key_keeps_first_listener w a b :
  colour_key_issued w ->
  FieldNumberSlider_valueChangeEventKey_ (showEditor_ b (showEditor_ a w).2).2 =
    Some (S (length (listeners w))) /\
  listeners (showEditor_ b (showEditor_ a w).2).2 !! S (length (listeners w)) =
    Some (mkListener (S (length (sliders w))) CHANGE (SliderCallback b) false) /\
  forall selves,
    listeners (dispose_all selves (showEditor_ b (showEditor_ a w).2).2)
      !! length (listeners w) =
    Some (mkListener (length (sliders w)) CHANGE (SliderCallback a) false).
Proof.
  intros Hkey.
  set (w1 := (showEditor_ a w).2). set (w2 := (showEditor_ b w1).2).
  destruct (showEditor_listeners a w) as [Hl1 Hn1]. fold w1 in Hl1, Hn1.
  destruct (showEditor_listeners b w1) as [Hl2 _]. fold w2 in Hl2.
  destruct (showEditor_frame a w) as (_ & _ & _ & Hc1 & _). fold w1 in Hc1.
  destruct (showEditor_frame b w1) as (_ & _ & Hk2 & Hc2 & _). fold w2 in Hk2, Hc2.
  split; [|split].
  - rewrite Hk2, Hl1, length_app. cbn. f_equal. lia.
  - rewrite Hl2, Hl1, Hn1.
    replace (S (length (listeners w))) with (length (listeners w ++
      [mkListener (length (sliders w)) CHANGE (SliderCallback a) false]))
      by (rewrite length_app; cbn; lia).
    rewrite lookup_at_length. reflexivity.
  - intros selves. apply dispose_all_keeps_listener.
    + rewrite Hl2, Hl1, <- app_assoc, lookup_at_length. reflexivity.
    + rewrite Hc2, Hc1. intros Hk. apply Hkey in Hk. lia.
Qed.

Lemma shared_key_keeps_first_listener_witness :
  colour_key_issued a_world /\
  listeners (dispose_all [1; 0; 1]%nat (showEditor_ 1 (showEditor_ 0 a_world).2).2) !! 0%nat =
    Some (mkListener 0 CHANGE (SliderCallback 0) false).
Proof.
  assert (colour_key_issued a_world) as H by (intros k Hk; discriminate Hk).
  split; [exact H|].
  exact (proj2 (proj2 (shared_key_keeps_first_listener a_world 0%nat 1%nat H)) [1; 0; 1]%nat).
Defined.

(** ** The bounds given at construction *)

Lemma showEditor_cases self w :
  showEditor_ self w =
    match fields w !! self with
    | None => (Throw (TypeError "this is undefined"), built self w)
    | Some f =>
        match sourceBlock_ f with
        | None => (Throw (TypeError "Cannot read property parentBlock_ of null"), built self w)
        | Some b =>
            match parentBlock_ b with
            | None => (Throw (TypeError "Cannot read property getCategory of null"), built self w)
            | Some p => (Normal tt, shown self f (category_ p) w)
            end
        end
    end.
Proof.
  destruct (fields w !! self) as [f|] eqn:Hf; [|by rewrite showEditor_eval, Hf].
  destruct (sourceBlock_ f) as [b|] eqn:Hb; [|by rewrite showEditor_eval, Hf, Hb].
  destruct (parentBlock_ b) as [p|] eqn:Hp; [|by rewrite showEditor_eval, Hf, Hb, Hp].
  by apply (showEditor_normal self w f b p).
Qed.

Lemma built_forget_bounds self w :
  built self (forget_bounds w) = forget_bounds (built self w).
Proof.
  destruct w as [fs ss ns ls k1 k2 dd g msg]. unfold built, forget_bounds. exec.
  f_equal.
  rewrite (list_fmap_alter forget_restrictor (set_valueSlider (length ss))
             (set_valueSlider (length ss))) by (by apply Forall_true).
  rewrite (list_fmap_alter forget_restrictor (set_valueReadout (length ns + 1))
             (set_valueReadout (length ns + 1))) by (by apply Forall_true).
  reflexivity.
Qed.

Lemma shown_forget_bounds self f c w :
  shown self (forget_restrictor f) c (forget_bounds w) = forget_bounds (shown self f c w).
Proof.
  destruct w as [fs ss ns ls k1 k2 dd g msg].
  unfold shown, positioned, built, forget_bounds. exec.
  cbn [text_ forget_restrictor]. f_equal.
  rewrite (list_fmap_alter forget_restrictor (set_valueSlider (length ss))
             (set_valueSlider (length ss))) by (by apply Forall_true).
  rewrite (list_fmap_alter forget_restrictor (set_valueReadout (length ns + 1))
             (set_valueReadout (length ns + 1))) by (by apply Forall_true).
  reflexivity.
Qed.

(** [showEditor_] does not read the restrictor. *)
Lemma showEditor_forget_bounds self w :
  showEditor_ self (forget_bounds w) =
    ((showEditor_ self w).1, forget_bounds (showEditor_ self w).2).
Proof.
  rewrite !showEditor_cases.
  assert (fields (forget_bounds w) !! self = forget_restrictor <$> fields w !! self) as ->
    by (destruct w; cbn; apply list_lookup_fmap).
  destruct (fields w !! self) as [f|]; cbn [fmap option_fmap option_map].
  - cbn [sourceBlock_ forget_restrictor]. destruct (sourceBlock_ f) as [b|].
    + destruct (parentBlock_ b) as [p|]; cbn [fst snd].
      * by rewrite shown_forget_bounds.
      * by rewrite built_forget_bounds.
    + by rewrite built_forget_bounds.
  - by rewrite built_forget_bounds.
Qed.

(** C9: the minimum, maximum and precision given to the constructor end up
    in the restrictor and nowhere else.  Two fields built from the same
    value and validator differ in their restrictor only, and on stores that
    differ in restrictors only [showEditor_] completes the same way and
    leaves stores that differ in restrictors only (so with the same
    sliders). *)
Theorem bounds_do_not_interfere v opt_validator min1 max1 prec1 min2 max2 prec2 :
  text_ (FieldNumberSlider v min1 max1 prec1 opt_validator) =
    text_ (FieldNumberSlider v min2 max2 prec2 opt_validator) /\
  forget_restrictor (FieldNumberSlider v min1 max1 prec1 opt_validator) =
    forget_restrictor (FieldNumberSlider v min2 max2 prec2 opt_validator) /\
  forall w1 w2 self,
    forget_bounds w1 = forget_bounds w2 ->
    (showEditor_ self w1).1 = (showEditor_ self w2).1 /\
    forget_bounds (showEditor_ self w1).2 = forget_bounds (showEditor_ self w2).2 /\
    sliders (showEditor_ self w1).2 = sliders (showEditor_ self w2).2.
Proof.
  split; [|split].
  { unfold FieldNumberSlider. cbn [text_ addArgType set_argType Field_constructor]. reflexivity. }
  { unfold FieldNumberSlider, addArgType, Field_constructor, set_argType, forget_restrictor.
    cbn [text_ validator_ argType_ sourceBlock_ valueSlider_ valueReadout_]. reflexivity. }
  intros w1 w2 self Hw.
  pose proof (showEditor_forget_bounds self w1) as H1.
  pose proof (showEditor_forget_bounds self w2) as H2.
  rewrite Hw, H2 in H1. apply pair_equal_spec in H1 as [Hr Hs].
  split; [congruence|]. split; [congruence|].
  assert (forall w, sliders (forget_bounds w) = sliders w) as Hsl by (by intros []).
  rewrite <- (Hsl (showEditor_ self w1).2), <- (Hsl (showEditor_ self w2).2). congruence.
Qed.

(** ** The value stays a number *)

(** C7, as the spec states it, fails at construction already: the initial
    value Infinity is kept as "Infinity", which is coercible to a number,
    but not to a finite one. *)
Lemma value_always_finite_counterexample :
  ~ (forall v opt_min opt_max opt_precision opt_validator,
       coercible_to_finite
         (text_ (FieldNumberSlider v opt_min opt_max opt_precision opt_validator))).
Proof.
  intros H.
  specialize (H (JS.Number (JS.Inf false)) JS.Undefined JS.Undefined JS.Undefined None).
  vm_compute in H. discriminate H.
Qed.

Lemma constructed_coercible v opt_min opt_max opt_precision opt_validator :
  coercible (text_ (FieldNumberSlider v opt_min opt_max opt_precision opt_validator)).
Proof.
  unfold FieldNumberSlider, coercible.
  cbn [text_ addArgType set_argType Field_constructor].
  destruct (JS.truthy v) eqn:Ht; [|reflexivity]. cbn [andb].
  destruct (JS.isNaN v) eqn:Hn; [reflexivity|]. cbn [negb].
  destruct v as [| |n|s]; try discriminate.
  - apply (JSFacts.number_to_string_numeric n Hn).
  - exact Hn.
Qed.

(** What the callback commits for a number is coercible. *)
Lemma committed_coercible n :
  coercible (formatted (JS.or_else (JS.Number n) (JS.Number JS.zero))).
Proof.
  unfold coercible, formatted, JS.isNaN. cbn [JS.to_number].
  apply JSFacts.toFixed1_numeric. unfold JS.parseFloat.
  assert (exists n', JS.or_else (JS.Number n) (JS.Number JS.zero) = JS.Number n' /\
                     JS.is_nan n' = false) as (n' & -> & Hn').
  { unfold JS.or_else. destruct n as [|?|?|? ? ?]; cbn; eauto. }
  apply (JSFacts.number_to_string_numeric n' Hn').
Qed.

(** The field [self] holds a text that is coercible to a number, and its
    validator keeps it so. *)
Definition number_valued (self : FieldId) (fs : list Field) : Prop :=
  exists f, fs !! self = Some f /\ keeps_coercible (validator_ f) /\ coercible (text_ f).

Lemma number_valued_alter self i g fs :
  (forall f, validator_ (g f) = validator_ f) ->
  (forall f, i = self -> fs !! self = Some f -> keeps_coercible (validator_ f) ->
             coercible (text_ f) -> coercible (text_ (g f))) ->
  number_valued self fs -> number_valued self (alter g i fs).
Proof.
  intros Hv Ht (f & Hf & Hk & Hc). destruct (decide (i = self)) as [->|Hi].
  - exists (g f). rewrite list_lookup_alter_eq, Hf. split; [reflexivity|].
    rewrite Hv. split; [exact Hk|]. by apply Ht.
  - exists f. rewrite list_lookup_alter_ne by exact Hi. auto.
Qed.

(** Setters that leave the text and the validator alone. *)
Lemma number_valued_alter_same self i g fs :
  (forall f, validator_ (g f) = validator_ f) -> (forall f, text_ (g f) = text_ f) ->
  number_valued self fs -> number_valued self (alter g i fs).
Proof.
  intros Hv Ht. apply number_valued_alter; [exact Hv|]. intros f _ _ _ Hc. by rewrite Ht.
Qed.

Lemma updateDom_frame self w :
  fields (updateDom_ self w).2 = fields w /\ sliders (updateDom_ self w).2 = sliders w.
Proof.
  destruct w as [fs ss ns ls k1 k2 dd g msg].
  unfold updateDom_, getText, assign_textContent. exec.
  destruct (fs !! self) as [f|] eqn:Hf; exec; [|auto].
  destruct (valueSlider_ f); exec; [|auto]. rewrite Hf. exec.
  destruct (valueReadout_ f); exec; auto.
Qed.

Lemma setValue_frame self w t :
  sliders (setValue self t w).2 = sliders w /\
  (fields (setValue self t w).2 = fields w \/
   exists f a, fields w !! self = Some f /\ callValidator f t = Some a /\
               fields (setValue self t w).2 = alter (set_text a) self (fields w)).
Proof.
  destruct (fields w !! self) as [f|] eqn:Hf.
  - rewrite (setValue_eval _ _ _ _ Hf). destruct (callValidator f t) as [a|] eqn:Ha.
    + split; [by destruct w|]. right. exists f, a. by destruct w.
    + auto.
  - destruct w as [fs ss ns ls k1 k2 dd g msg]. cbn in Hf.
    unfold setValue. exec. rewrite Hf. exec. auto.
Qed.

(** A callback keeps the sliders, and keeps every field's text a number when
    the slider holds a number or null. *)
Lemma run_handler_number_valued self h event w x :
  (forall sl, sliders w !! target event = Some sl -> sliderValue sl = x) ->
  number_or_null x ->
  number_valued self (fields w) ->
  sliders (run_handler h event w).2 = sliders w /\
  number_valued self (fields (run_handler h event w).2).
Proof.
  intros Hx Hnum Hinv. destruct h as [g|]; [|auto]. cbn [run_handler].
  destruct (sliders w !! target event) as [sl|] eqn:Hsl.
  2:{ destruct w as [fs ss ns ls k1 k2 dd gr msg]. cbn in Hsl.
      unfold sliderCallbackFactory_, slider_getValue. exec. rewrite Hsl. exec. auto. }
  rewrite (sliderCallback_eval _ _ _ _ Hsl), (Hx sl eq_refl).
  destruct x as [| |n|s]; try contradiction; cbn [JS.is_not_null]; [auto|].
  unfold bind.
  destruct (setValue_frame g w (formatted (JS.or_else (JS.Number n) (JS.Number JS.zero))))
    as [Hs Hf].
  destruct (setValue g _ w) as [[[]|e] w1]; cbn [snd] in *; [|].
  - destruct (updateDom_frame g w1) as [Hf1 Hs1]. rewrite Hs1, Hf1. split; [exact Hs|].
    destruct Hf as [-> | (f & a & Hfg & Ha & ->)]; [exact Hinv|].
    apply number_valued_alter; auto.
    intros f' -> Hf' Hk _. cbn. rewrite Hfg in Hf'. injection Hf' as <-.
    unfold callValidator in Ha. destruct (validator_ f) as [v|] eqn:Hv.
    + exact (Hk v _ a eq_refl Ha).
    + injection Ha as <-. apply committed_coercible.
  - split; [exact Hs|].
    destruct Hf as [-> | (f & a & Hfg & Ha & ->)]; [exact Hinv|].
    apply number_valued_alter; auto.
    intros f' -> Hf' Hk _. cbn. rewrite Hfg in Hf'. injection Hf' as <-.
    unfold callValidator in Ha. destruct (validator_ f) as [v|] eqn:Hv.
    + exact (Hk v _ a eq_refl Ha).
    + injection Ha as <-. apply committed_coercible.
Qed.

Lemma run_listeners_number_valued self ls event w x :
  (forall sl, sliders w !! target event = Some sl -> sliderValue sl = x) ->
  number_or_null x ->
  number_valued self (fields w) ->
  number_valued self (fields (run_listeners ls event w).2).
Proof.
  revert w. induction ls as [|l ls IH]; intros w Hx Hnum Hinv; [exact Hinv|].
  cbn [run_listeners]. unfold bind.
  destruct (run_handler_number_valued self (handler l) event w x Hx Hnum Hinv) as [Hs Hi].
  destruct (run_handler (handler l) event w) as [[[]|e] w1]; cbn [snd] in *; [|exact Hi].
  apply (IH w1); auto. rewrite Hs. exact Hx.
Qed.

Lemma run_step_number_valued self st w :
  slider_step st ->
  number_valued self (fields w) ->
  number_valued self (fields (run_step self st w).2).
Proof.
  intros Hst Hinv. destruct st as [|x|]; cbn [run_step slider_step] in *.
  - destruct (showEditor_frame self w) as (-> & _). cbn.
    by do 2 (apply number_valued_alter_same; [reflexivity | reflexivity |]).
  - unfold bind, this.
    destruct (fields w !! self) as [f|]; cbn [deref ret throw snd]; [|exact Hinv].
    destruct (valueSlider_ f) as [s|]; [|exact Hinv].
    unfold user_moves_slider, dispatch_change.
    change ((modify (with_sliders (alter (hold x) s));;
             ls <- gets (fun w0 => change_listeners w0 s);; run_listeners ls (mkEvent s)) w)
      with (run_listeners (change_listeners (holding s x w) s) (mkEvent s) (holding s x w)).
    apply (run_listeners_number_valued self _ _ _ x); [|exact Hst|by destruct w].
    destruct w; cbn. intros sl. rewrite list_lookup_alter_eq.
    destruct (_ !! s); cbn; [|discriminate]. by intros [= <-].
  - rewrite dispose_eval. destruct w as [fs ss ns ls k1 k2 dd g msg]. unfold disposed. exec.
    by apply number_valued_alter_same.
Qed.

Lemma life_number_valued self steps w :
  Forall slider_step steps ->
  number_valued self (fields w) ->
  number_valued self (fields (life self steps w)).
Proof.
  intros Hsteps. revert w. induction Hsteps as [|st steps Hst _ IH]; intros w Hinv; [exact Hinv|].
  cbn [life]. apply IH. by apply run_step_number_valued.
Qed.

(** C7, amended: throughout its life (its editor opened, its slider moved
    to numbers or null, the field disposed, in any order) the value of a
    field is a string coercible to a number, that is, not to NaN; it need
    not be finite.  This holds when the validator, if there is one, only
    accepts such strings.  A value that is not numeric at construction
    falls back to "0". *)
Theorem value_always_a_number w self v opt_min opt_max opt_precision opt_validator block steps :
  fields w !! self =
    Some (set_sourceBlock block
            (FieldNumberSlider v opt_min opt_max opt_precision opt_validator)) ->
  keeps_coercible opt_validator ->
  Forall slider_step steps ->
  (exists f, fields (life self steps w) !! self = Some f /\ coercible (text_ f)) /\
  (numeric v = false ->
   text_ (FieldNumberSlider v opt_min opt_max opt_precision opt_validator) = "0").
Proof.
  intros Hf Hk Hsteps. split.
  - destruct (life_number_valued self steps w Hsteps) as (f & Hf' & _ & Hc); [|eauto].
    eexists. split; [exact Hf|]. split; [exact Hk|]. apply constructed_coercible.
  - intros Hn. unfold FieldNumberSlider. cbn [text_ addArgType set_argType Field_constructor].
    destruct v as [| |n|s]; try reflexivity.
    + destruct n as [|[]|[]|[] m e]; try reflexivity; discriminate.
    + destruct s as [|c s]; [reflexivity|].
      unfold JS.isNaN, numeric in *. cbn [JS.truthy JS.to_number andb].
      destruct (JS.is_nan _); [reflexivity | discriminate].
Qed.

Lemma value_always_a_number_witness :
  (exists f,
     fields (life 1 [Open; Change (JS.Number (JS.Inf true)); Change JS.Null; Close; Open]
               a_world) !! 1%nat = Some f /\ coercible (text_ f)) /\
  (numeric (JS.Number JS.zero) = false ->
   text_ (FieldNumberSlider (JS.Number JS.zero) JS.Undefined JS.Undefined JS.Undefined None)
     = "0").
Proof.
  apply (value_always_a_number a_world 1%nat (JS.Number JS.zero) JS.Undefined JS.Undefined
           JS.Undefined None (Some a_block)).
  - reflexivity.
  - intros f t a Hf. discriminate Hf.
  - repeat constructor.
Defined.

(* ===================================================================== *)
(** * Further properties of the source *)
(* ===================================================================== *)

(** ** createLabelDom_ *)

(** X2: [createLabelDom_] never throws.  It appends three elements to the
    document and changes none that was there: the container it returns
    holds the label, then the readout; the label shows the text given and
    the readout starts empty. *)
Theorem createLabelDom_creates_three labelText w :
  exists w',
    createLabelDom_ labelText w =
      (Normal (length (nodes w), (length (nodes w) + 1)%nat), w') /\
    nodes w' =
      nodes w ++
      [mkElement "div" "scratchColourPickerLabel" ""
         [(length (nodes w) + 2)%nat; (length (nodes w) + 1)%nat] [];
       mkElement "span" "scratchColourPickerReadout" "" [] [];
       mkElement "span" "scratchColourPickerLabelText" labelText [] []] /\
    fields w' = fields w /\ sliders w' = sliders w /\ listeners w' = listeners w /\
    dropDownDiv w' = dropDownDiv w.
Proof.
  destruct w as [fs ss ns ls k1 k2 dd g msg].
  unfold createLabelDom_, createElement, setAttribute_class, assign_textContent, appendChild.
  do 3 (exec_objects; norm_lists).
  eexists. split; [reflexivity|]. cbn. auto 10.
Qed.

(** ** updateDom_ *)

(** X3: on a field whose editor was never opened (it has no slider)
    [updateDom_] changes nothing and does not throw, even though the field
    has no readout. *)
Theorem updateDom_without_slider w self f :
  fields w !! self = Some f -> valueSlider_ f = None ->
  updateDom_ self w = (Normal tt, w).
Proof.
  intros Hf Hs. destruct w as [fs ss ns ls k1 k2 dd g msg]. cbn in Hf.
  unfold updateDom_. exec. rewrite Hf. exec. rewrite Hs. reflexivity.
Qed.

Lemma updateDom_without_slider_witness :
  updateDom_ 0 a_world = (Normal tt, a_world).
Proof.
  exact (updateDom_without_slider a_world 0%nat (a_field (JS.Str "0.5")) eq_refl eq_refl).
Defined.

(** ** showEditor_ *)

(** X4: on a field that has no block [showEditor_] throws a TypeError, but
    only after it has built the slider, registered the change listener and
    overwritten the class's key: the listener is left registered. *)
Theorem showEditor_without_block w self f :
  fields w !! self = Some f -> sourceBlock_ f = None ->
  exists w',
    showEditor_ self w =
      (Throw (TypeError "Cannot read property parentBlock_ of null"), w') /\
    listeners w' =
      listeners w ++ [mkListener (length (sliders w)) CHANGE (SliderCallback self) false] /\
    FieldNumberSlider_valueChangeEventKey_ w' = Some (length (listeners w)) /\
    visible (dropDownDiv w') = false.
Proof.
  intros Hf Hb. rewrite showEditor_cases, Hf, Hb. eexists. split; [reflexivity|].
  cbn. auto.
Qed.

Lemma showEditor_without_block_witness :
  exists w',
    showEditor_ 0 (mkWorld [fromJson []] [] [] [] None None
                     (mkDropDownDiv [] false ("", "") None None) "" "Value") =
      (Throw (TypeError "Cannot read property parentBlock_ of null"), w') /\
    listeners w' = [] ++ [mkListener 0 CHANGE (SliderCallback 0) false] /\
    FieldNumberSlider_valueChangeEventKey_ w' = Some 0%nat /\
    visible (dropDownDiv w') = false.
Proof.
  exact (showEditor_without_block
           (mkWorld [fromJson []] [] [] [] None None
              (mkDropDownDiv [] false ("", "") None None) "" "Value")
           0%nat (fromJson []) eq_refl eq_refl).
Defined.



(** X6: [showEditor_] only adds.  However it completes, the sliders and the
    elements that existed are still there, unchanged: the slider of an
    earlier opening is neither removed nor altered, and no listener is
    removed. *)
Theorem showEditor_only_adds w self :
  take (length (sliders w)) (sliders (showEditor_ self w).2) = sliders w /\
  take (length (nodes w)) (nodes (showEditor_ self w).2) = nodes w /\
  take (length (listeners w)) (listeners (showEditor_ self w).2) = listeners w /\
  length (fields (showEditor_ self w).2) = length (fields w).
Proof.
  destruct (showEditor_frame self w) as (Hf & Hl & _ & _ & _ & _ & sl & Hs & _).
  rewrite Hs, Hl, Hf. cbn [listeners fields built]. rewrite !take_app_length, !length_alter.
  split; [reflexivity|]. split; [|auto].
  rewrite showEditor_cases.
  destruct (fields w !! self) as [f|]; [|cbn; apply take_app_length].
  destruct (sourceBlock_ f) as [b|]; [|cbn; apply take_app_length].
  destruct (parentBlock_ b) as [p|]; [|cbn; apply take_app_length].
  destruct w as [fs ss ns ls k1 k2 dd g msg]. unfold shown, positioned, built. exec.
  norm_lists. apply take_app_length.
Qed.

(** ** dispose *)

(** X7: [dispose] does not detach the listener that [showEditor_]
    registered for the field: it unlistens the key of another class
    ([Blockly.FieldColourSlider]).  After opening and disposing, the
    listener is still registered and the class's key still names it. *)
Theorem dispose_leaves_own_listener w self :
  colour_key_issued w ->
  listeners (dispose self (showEditor_ self w).2).2 !! length (listeners w) =
    Some (mkListener (length (sliders w)) CHANGE (SliderCallback self) false) /\
  FieldNumberSlider_valueChangeEventKey_ (dispose self (showEditor_ self w).2).2 =
    Some (length (listeners w)).
Proof.
  intros Hkey.
  destruct (showEditor_frame self w) as (_ & Hl & Hk & Hc & _).
  split.
  - apply dispose_keeps_listener.
    + rewrite Hl. cbn. rewrite lookup_at_length. reflexivity.
    + rewrite Hc. intros Hk'. apply Hkey in Hk'. lia.
  - rewrite dispose_eval. rewrite <- Hk. by destruct (showEditor_ self w).2.
Qed.

Lemma dispose_leaves_own_listener_witness :
  colour_key_issued a_world /\
  listeners (dispose 0 (showEditor_ 0 a_world).2).2 !! 0%nat =
    Some (mkListener 0 CHANGE (SliderCallback 0) false).
Proof.
  assert (colour_key_issued a_world) as H by (intros k Hk; discriminate Hk).
  split; [exact H|].
  exact (proj1 (dispose_leaves_own_listener a_world 0%nat H)).
Defined.

(** ** The callback *)

(** What a run of the callback leaves alone. *)
Lemma sliderCallback_writes self event w :
  sliders (sliderCallbackFactory_ self event w).2 = sliders w /\
  listeners (sliderCallbackFactory_ self event w).2 = listeners w /\
  dropDownDiv (sliderCallbackFactory_ self event w).2 = dropDownDiv w /\
  FieldNumberSlider_valueChangeEventKey_ (sliderCallbackFactory_ self event w).2 =
    FieldNumberSlider_valueChangeEventKey_ w /\
  length (nodes (sliderCallbackFactory_ self event w).2) = length (nodes w) /\
  forall i, i <> self ->
    fields (sliderCallbackFactory_ self event w).2 !! i = fields w !! i.
Proof.
  destruct w as [fs ss ns ls k1 k2 dd g msg].
  unfold sliderCallbackFactory_, slider_getValue, setValue, updateDom_, getText,
    assign_textContent.
  exec. destruct (ss !! target event) as [sl|]; exec; [|auto 10].
  destruct (JS.is_not_null (sliderValue sl)); exec; [|auto 10].
  destruct (fs !! self) as [f|] eqn:Hf; exec; [|auto 10].
  destruct (callValidator f _) as [a|]; exec.
  - rewrite list_lookup_alter_eq, Hf. exec.
    assert (forall i, i <> self -> alter (set_text a) self fs !! i = fs !! i) as Hother
      by (intros i Hi; apply list_lookup_alter_ne; congruence).
    destruct (valueSlider_ (set_text a f)); exec; [|auto 10].
    rewrite list_lookup_alter_eq, Hf. exec.
    destruct (valueReadout_ (set_text a f)); exec; rewrite ?length_alter; auto 10.
  - rewrite Hf. exec. destruct (valueSlider_ f); exec; [|auto 10].
    rewrite Hf. exec. destruct (valueReadout_ f); exec; rewrite ?length_alter; auto 10.
Qed.

(** The listeners after two openings, by two fields or by one. *)
Lemma two_openings_listeners w a b :
  listeners_on_sliders w ->
  change_listeners (showEditor_ b (showEditor_ a w).2).2 (length (sliders w)) =
    [mkListener (length (sliders w)) CHANGE (SliderCallback a) false] /\
  change_listeners (showEditor_ b (showEditor_ a w).2).2 (S (length (sliders w))) =
    [mkListener (S (length (sliders w))) CHANGE (SliderCallback b) false].
Proof.
  intros Hwf.
  destruct (showEditor_listeners a w) as [Hl1 Hn1].
  destruct (showEditor_listeners b (showEditor_ a w).2) as [Hl2 _].
  unfold change_listeners. rewrite Hl2, Hl1, Hn1, !filter_app.
  split.
  - rewrite no_change_listeners.
    2:{ eapply Forall_impl; [exact Hwf|]. cbn. intros l Hl. lia. }
    rewrite filter_cons_True by (unfold listens_to; cbn; rewrite Nat.eqb_refl; exact I).
    rewrite (no_change_listeners _ [_]) by (constructor; [cbn; lia | constructor]).
    reflexivity.
  - rewrite no_change_listeners.
    2:{ eapply Forall_impl; [exact Hwf|]. cbn. intros l Hl. lia. }
    rewrite (no_change_listeners _ [_]) by (constructor; [cbn; lia | constructor]).
    rewrite filter_cons_True by (unfold listens_to; cbn; rewrite Nat.eqb_refl; exact I).
    reflexivity.
Qed.

Lemma user_moves_slider_single s x w self :
  change_listeners w s = [mkListener s CHANGE (SliderCallback self) false] ->
  user_moves_slider s x w = sliderCallbackFactory_ self (mkEvent s) (holding s x w).
Proof.
  intros Hcl. unfold user_moves_slider, dispatch_change.
  change ((modify (with_sliders (alter (hold x) s));;
           ls <- gets (fun w0 => change_listeners w0 s);; run_listeners ls (mkEvent s)) w)
    with (run_listeners (change_listeners (holding s x w) s) (mkEvent s) (holding s x w)).
  assert (change_listeners (holding s x w) s = change_listeners w s) as ->
    by (destruct w; reflexivity).
  rewrite Hcl. cbn [run_listeners run_handler handler]. apply run_single_listener.
Qed.

(** X9: a change event reaches only the field that listens on the slider.
    After field [a] and then another field [b] opened their editors,
    moving the slider of [b] leaves the field [a] as it was. *)
Theorem change_leaves_other_field w a b x :
  a <> b -> listeners_on_sliders w ->
  fields (user_moves_slider (S (length (sliders w))) x
            (showEditor_ b (showEditor_ a w).2).2).2 !! a =
  fields (showEditor_ b (showEditor_ a w).2).2 !! a.
Proof.
  intros Hab Hwf. destruct (two_openings_listeners w a b Hwf) as [_ Hb].
  rewrite (user_moves_slider_single _ _ _ _ Hb).
  destruct (sliderCallback_writes b (mkEvent (S (length (sliders w))))
              (holding (S (length (sliders w))) x (showEditor_ b (showEditor_ a w).2).2))
    as (_ & _ & _ & _ & _ & Hother).
  rewrite (Hother a Hab). by destruct (showEditor_ b (showEditor_ a w).2).2.
Qed.

Lemma change_leaves_other_field_witness :
  fields (user_moves_slider 1 (JS.Number JS.one)
            (showEditor_ 1 (showEditor_ 0 a_world).2).2).2 !! 0%nat =
  fields (showEditor_ 1 (showEditor_ 0 a_world).2).2 !! 0%nat.
Proof.
  refine (change_leaves_other_field a_world 0%nat 1%nat (JS.Number JS.one) _ (Forall_nil_2 _)).
  discriminate.
Defined.

(** X10: the listener of an earlier opening still drives the field.  After
    [showEditor_] ran twice on a field without validator, a change event on
    the first slider, which the field no longer holds, commits its value to
    the field and shows it in the readout of the second opening. *)
Theorem stale_listener_still_commits w self f x :
  fields w !! self = Some f -> validator_ f = None -> listeners_on_sliders w ->
  JS.truthy x = true ->
  exists w',
    user_moves_slider (length (sliders w)) x (showEditor_ self (showEditor_ self w).2).2 =
      (Normal tt, w') /\
    text_ <$> fields w' !! self = Some (formatted x) /\
    textContent <$> nodes w' !! (length (nodes w) + 5)%nat = Some (formatted x).
Proof.
  intros Hf Hv Hwf Hx.
  set (w1 := (showEditor_ self w).2). set (w2 := (showEditor_ self w1).2).
  destruct (two_openings_listeners w self self Hwf) as [Ha _]. fold w1 w2 in Ha.
  rewrite (user_moves_slider_single _ _ _ _ Ha).
  destruct (showEditor_frame self w) as (Hf1 & _ & _ & _ & _ & Hn1 & sl1 & Hs1 & _).
  fold w1 in Hf1, Hn1, Hs1.
  destruct (showEditor_frame self w1) as (Hf2 & _ & _ & _ & _ & Hn2 & sl2 & Hs2 & _).
  fold w2 in Hf2, Hn2, Hs2.
  set (f2 := set_valueSlider (length (sliders w1))
               (set_valueReadout (length (nodes w1) + 1)
                  (set_valueSlider (length (sliders w))
                     (set_valueReadout (length (nodes w) + 1) f)))).
  assert (fields w2 !! self = Some f2) as Hf2'.
  { rewrite Hf2. cbn. rewrite !list_lookup_alter_eq, Hf1. cbn.
    rewrite !list_lookup_alter_eq, Hf. reflexivity. }
  assert (overlay_open (holding (length (sliders w)) x w2) self f2 (length (nodes w) + 5)) as Ho.
  { split; [by destruct w2|]. split; [by eexists|]. split.
    - cbn. rewrite Hn1. f_equal. lia.
    - apply lookup_lt_is_Some. destruct w2; cbn in *. lia. }
  destruct (sliderCallback_commits _ self (mkEvent (length (sliders w))) (hold x sl1) f2
              (length (nodes w) + 5)%nat (formatted x) Ho) as (w' & Hrun & Ht & Hr & _).
  - destruct w2; cbn in *. rewrite list_lookup_alter_eq, Hs2, Hs1, <- app_assoc.
    rewrite lookup_at_length. reflexivity.
  - cbn. destruct x; try discriminate; reflexivity.
  - cbn [sliderValue hold]. unfold JS.or_else. rewrite Hx. reflexivity.
  - unfold callValidator. cbn. rewrite Hv. reflexivity.
  - eauto.
Qed.

Lemma stale_listener_still_commits_witness :
  exists w',
    user_moves_slider 0 (JS.Number JS.one) (showEditor_ 0 (showEditor_ 0 a_world).2).2 =
      (Normal tt, w') /\
    text_ <$> fields w' !! 0%nat = Some "1.0" /\
    textContent <$> nodes w' !! 5%nat = Some "1.0".
Proof.
  exact (stale_listener_still_commits a_world 0%nat (a_field (JS.Str "0.5"))
           (JS.Number JS.one) eq_refl eq_refl (Forall_nil_2 _) eq_refl).
Defined.

(** X11: what the callback commits for a number is read back as a number.
    After a change event with a number on a field without validator,
    [updateSliderHandles_] sets the field's slider to a value that is not
    NaN. *)
Theorem committed_value_reads_back w self event sl f r s n :
  overlay_open w self f r -> validator_ f = None -> valueSlider_ f = Some s ->
  is_Some (sliders w !! s) ->
  sliders w !! target event = Some sl -> sliderValue sl = JS.Number n ->
  exists w1 w2 m,
    sliderCallbackFactory_ self event w = (Normal tt, w1) /\
    updateSliderHandles_ self w1 = (Normal tt, w2) /\
    sliderValue <$> sliders w2 !! s = Some (JS.Number m) /\ JS.is_nan m = false.
Proof.
  intros Ho Hv Hs [sl0 Hsl0] Hsl Hn.
  set (t := formatted (JS.or_else (JS.Number n) (JS.Number JS.zero))).
  assert (callValidator f t = Some t) as Hacc by (unfold callValidator; by rewrite Hv).
  pose proof (sliderCallback_eval self event w sl Hsl) as Hrun.
  rewrite Hn in Hrun. cbn [JS.is_not_null] in Hrun. fold t in Hrun.
  rewrite (commit_eval _ _ _ _ _ _ Ho Hacc) in Hrun.
  destruct Ho as (Hf & _).
  set (w1 := with_nodes (alter (set_textContent t) r)
               (with_fields (alter (set_text t) self) w)) in *.
  assert (fields w1 !! self = Some (set_text t f)) as Hf1.
  { destruct w; cbn in *. rewrite list_lookup_alter_eq, Hf. reflexivity. }
  exists w1, (with_sliders (alter (sync_handle t) s) w1), (JS.parseFloat (JS.Str t)).
  split; [exact Hrun|].
  split; [exact (updateSliderHandles_eval self w1 (set_text t f) s Hf1 Hs)|]. split.
  - destruct w; cbn in *. rewrite list_lookup_alter_eq, Hsl0. cbn.
    unfold sync_handle. destruct (JS.equals_zero (JS.parseFloat (JS.Str t))); reflexivity.
  - unfold JS.parseFloat. cbn [JS.to_string]. apply JSFacts.toFixed1_numeric.
    assert (exists n', JS.or_else (JS.Number n) (JS.Number JS.zero) = JS.Number n' /\
                       JS.is_nan n' = false) as (n' & -> & Hn').
    { unfold JS.or_else. destruct n as [|?|?|? ? ?]; cbn; eauto. }
    apply (JSFacts.number_to_string_numeric n' Hn').
Qed.

Lemma committed_value_reads_back_witness :
  exists w1 w2 m,
    sliderCallbackFactory_ 0 (mkEvent 0)
      (holding 0 (JS.Number (JS.Inf true)) an_open_world) = (Normal tt, w1) /\
    updateSliderHandles_ 0 w1 = (Normal tt, w2) /\
    sliderValue <$> sliders w2 !! 0%nat = Some (JS.Number m) /\ JS.is_nan m = false.
Proof.
  eapply (committed_value_reads_back (holding 0 (JS.Number (JS.Inf true)) an_open_world)
            0%nat (mkEvent 0%nat) _
            (set_valueSlider 0 (set_valueReadout 1 (a_field (JS.Str "0.5")))) 1%nat 0%nat
            (JS.Inf true)).
  - repeat split; by eexists.
  - reflexivity.
  - reflexivity.
  - by eexists.
  - reflexivity.
  - reflexivity.
Defined.

(** ** Listeners after a second opening *)







(** ** fromJson *)

(** X1: [fromJson] never passes a validator, whatever the arg object holds,
    and on an arg object with no ["value"] key it builds a field whose value
    is "0". *)
Theorem fromJson_without_value options :
  validator_ (fromJson options) = None /\
  (Forall (fun kv => fst kv <> "value") options -> text_ (fromJson options) = "0").
Proof.
  split; [reflexivity|]. intros Hno.
  assert (property options "value" = JS.Undefined) as Hp.
  { unfold property. induction Hno as [|kv options Hkv _ IH]; [reflexivity|].
    cbn [find]. destruct (String.eqb_spec (fst kv) "value"); [contradiction | exact IH]. }
  unfold fromJson. rewrite Hp. reflexivity.
Qed.

Lemma fromJson_without_value_witness :
  Forall (fun kv => fst kv <> "value") [("min", JS.Number JS.minus_one)] /\
  text_ (fromJson [("min", JS.Number JS.minus_one)]) = "0".
Proof.
  assert (Forall (fun kv : string * JS.value => fst kv <> "value")
            [("min", JS.Number JS.minus_one)]) as H
    by (repeat constructor; discriminate).
  split; [exact H|].
  exact (proj2 (fromJson_without_value [("min", JS.Number JS.minus_one)]) H).
Defined.

(** ** What the callback writes *)

(** X8: the callback writes the text of its own field and the text of that
    field's readout, nothing else.  The sliders, the listeners, the overlay,
    the class keys, the event group and the messages are as before; the
    fields are as before, or as before but for the text of the field
    [self]; the elements are as before, or as before but for the text of
    the element that is the readout of [self]. *)
Theorem sliderCallback_frame self event w :
  sliders (sliderCallbackFactory_ self event w).2 = sliders w /\
  listeners (sliderCallbackFactory_ self event w).2 = listeners w /\
  dropDownDiv (sliderCallbackFactory_ self event w).2 = dropDownDiv w /\
  FieldNumberSlider_valueChangeEventKey_ (sliderCallbackFactory_ self event w).2 =
    FieldNumberSlider_valueChangeEventKey_ w /\
  FieldColourSlider_valueChangeEventKey_ (sliderCallbackFactory_ self event w).2 =
    FieldColourSlider_valueChangeEventKey_ w /\
  eventGroup (sliderCallbackFactory_ self event w).2 = eventGroup w /\
  Msg_VALUE_LABEL (sliderCallbackFactory_ self event w).2 = Msg_VALUE_LABEL w /\
  (fields (sliderCallbackFactory_ self event w).2 = fields w \/
   exists a, fields (sliderCallbackFactory_ self event w).2 =
               alter (set_text a) self (fields w)) /\
  (nodes (sliderCallbackFactory_ self event w).2 = nodes w \/
   exists f r a, fields w !! self = Some f /\ valueReadout_ f = Some r /\
                 nodes (sliderCallbackFactory_ self event w).2 =
                   alter (set_textContent a) r (nodes w)).
Proof.
  destruct w as [fs ss ns ls k1 k2 dd g msg].
  unfold sliderCallbackFactory_, slider_getValue, setValue, updateDom_, getText,
    assign_textContent.
  exec. destruct (ss !! target event) as [sl|]; exec; [|auto 12].
  destruct (JS.is_not_null (sliderValue sl)); exec; [|auto 12].
  destruct (fs !! self) as [f|] eqn:Hf; exec; [|auto 12].
  destruct (callValidator f _) as [a|]; exec.
  - rewrite list_lookup_alter_eq, Hf. exec.
    destruct (valueSlider_ (set_text a f)); exec; [|repeat split; eauto].
    rewrite list_lookup_alter_eq, Hf. exec.
    destruct (valueReadout_ (set_text a f)) as [r|] eqn:Hr; exec;
      repeat split; eauto 10.
  - rewrite Hf. exec. destruct (valueSlider_ f); exec; [|auto 12].
    rewrite Hf. exec. destruct (valueReadout_ f) as [r|] eqn:Hr; exec;
      repeat split; eauto 10.
Qed.
